(** * specgrid.fitmultinest: priors, likelihood and posterior summary

    A shallow embedding of [specgrid/fitmultinest.py].

    Numbers.  The Python code computes with Python floats and numpy
    [float64] arrays, both IEEE 754 binary64.  The embedding uses the
    primitive binary64 floats of the prover: [+], [-], [*] and [/] round to
    nearest-even, overflow to infinities and produce [nan] as the hardware
    does, and comparisons are the IEEE ones ([nan] compares false, the two
    zeros compare equal).

    Exceptions.  A Python call either returns a value or raises; this is the
    type [result].  Code that also mutates an object (the cube handed to
    [prior_transform], the [FitMultinest] instance and the output files
    touched by [run]) is written in a state-and-exception monad [M]. *)

From Stdlib Require Import Floats ZArith Lia Bool.
From stdpp Require Import base option list strings gmap sorting.

Set Default Proof Using "Type".
Set Warnings "-inexact-float".

(** ** Exceptions and results *)

Inductive exn : Type :=
| TypeError
| IndexError
| ValueError
| AttributeError
| KeyError
| IOError
| EngineError.   (* anything raised inside the external sampler or plotting *)

Inductive result (A : Type) : Type :=
| Ok (a : A)
| Raise (e : exn).
Arguments Ok {A} a.
Arguments Raise {A} e.

(** The state-and-exception monad: a computation over a mutable store [S]
    returns the store it leaves behind together with its outcome.  When an
    exception escapes, the mutations made before it are kept. *)

Definition M (S A : Type) : Type := S -> S * result A.

Definition ret {S A} (a : A) : M S A := fun s => (s, Ok a).
Definition raise {S A} (e : exn) : M S A := fun s => (s, Raise e).
Definition bind {S A B} (c : M S A) (k : A -> M S B) : M S B :=
  fun s => match c s with
           | (s', Ok a) => k a s'
           | (s', Raise e) => (s', Raise e)
           end.
Definition get {S} : M S S := fun s => (s, Ok s).
Definition modify {S} (f : S -> S) : M S unit := fun s => (f s, Ok tt).
Definition lift {S A} (r : result A) : M S A := fun s => (s, r).

Notation "x <- c ;; k" := (bind c (fun x => k))
  (at level 100, c at next level, right associativity).
Notation "c ;;; k" := (bind c (fun _ => k))
  (at level 100, right associativity).

(** Exceptions alone, for code that touches no store. *)
Definition rbind {A B} (r : result A) (k : A -> result B) : result B :=
  match r with
  | Ok a => k a
  | Raise e => Raise e
  end.
Notation "x <~ r ;; k" := (rbind r (fun x => k))
  (at level 100, r at next level, right associativity).

(** [for i in idx: body(i)] *)
Fixpoint for_in {S} (idx : list nat) (body : nat -> M S unit) : M S unit :=
  match idx with
  | [] => ret tt
  | i :: rest => body i ;;; for_in rest body
  end.

(** [[f(x) for x in l]], stopping at the first exception. *)
Fixpoint list_comp {A B} (f : A -> result B) (l : list A) : result (list B) :=
  match l with
  | [] => Ok []
  | x :: rest => y <~ f x ;; ys <~ list_comp f rest ;; Ok (y :: ys)
  end.

(** ** Python sequences and dictionaries *)

(** [l[i]] for [0 <= i]: [IndexError] out of range. *)
Definition getitem {A} (l : list A) (i : nat) : result A :=
  match l !! i with
  | Some x => Ok x
  | None => Raise IndexError
  end.

(** [l[i] = v] on the list held in the store. *)
Definition setitem {A} (i : nat) (v : A) : M (list A) unit :=
  fun l => if decide (i < length l)%nat then (<[i := v]> l, Ok tt)
           else (l, Raise IndexError).

(** [l.index(x)]: position of the first occurrence, [ValueError] if absent. *)
Fixpoint list_index (x : string) (l : list string) : result nat :=
  match l with
  | [] => Raise ValueError
  | y :: rest => if decide (x = y) then Ok 0%nat
                 else i <~ list_index x rest ;; Ok (S i)
  end.

(** A dictionary is the list of its items in iteration order (insertion
    order for an [OrderedDict]); keys are unique. *)
Definition dict (V : Type) : Type := list (string * V).

Definition keys {V} (d : dict V) : list string := d.*1.
Definition values {V} (d : dict V) : list V := d.*2.

(** [d[key]] *)
Fixpoint dict_getitem {V} (d : dict V) (key : string) : result V :=
  match d with
  | [] => Raise KeyError
  | (k, v) :: rest => if decide (key = k) then Ok v else dict_getitem rest key
  end.

(** [d[key] = v]: an existing key keeps its position. *)
Fixpoint dict_setitem {V} (d : dict V) (key : string) (v : V) : dict V :=
  match d with
  | [] => [(key, v)]
  | (k, v0) :: rest => if decide (key = k) then (k, v) :: rest
                       else (k, v0) :: dict_setitem rest key v
  end.

(** [OrderedDict(pairs)] *)
Definition OrderedDict {V} (pairs : list (string * V)) : dict V :=
  foldl (fun d kv => dict_setitem d kv.1 kv.2) [] pairs.

(** [sorted(l, key=f)]: the key of every element is computed first, in order;
    the sort is stable. *)
Fixpoint insert_by_key (x : nat * string) (l : list (nat * string))
  : list (nat * string) :=
  match l with
  | [] => [x]
  | y :: rest => if decide (x.1 <= y.1)%nat then x :: y :: rest
                 else y :: insert_by_key x rest
  end.

Definition sorted_by (f : string -> result nat) (l : list string)
  : result (list string) :=
  decorated <~ list_comp (fun x => k <~ f x ;; Ok (k, x)) l ;;
  Ok (foldr insert_by_key [] decorated).*2.

(** ** numpy arrays (one-dimensional) *)

Module np.
(** Elementwise binary operation with broadcasting of length-one arrays. *)
Definition broadcast (op : float -> float -> float) (a b : list float) : result (list float) :=
  match a, b with
  | [x], _ => Ok (map (op x) b)
  | _, [y] => Ok (map (fun x => op x y) a)
  | _, _ => if decide (length a = length b) then Ok (zip_with op a b)
            else Raise ValueError
  end.

(** [a.sum()]: the elements are added up starting from the first one; an
    empty array sums to [0.0].  (numpy adds long arrays in blocks; the
    properties proved of sums below hold for every order of the additions,
    see [sums_to].) *)
Definition sum (a : list float) : float :=
  match a with
  | [] => 0%float
  | x :: rest => foldl PrimFloat.add x rest
  end.
End np.

(** ** scipy.stats

    The quantile functions themselves are numerical routines outside this
    repository; they are parameters.  What matters here is the calling
    convention [dist.ppf(q, *shape, loc=0, scale=1)]: [norm] has no shape
    parameter, [poisson] has the required shape parameter [mu]. *)

Module scipy_stats.
Record quantiles : Type := {
  norm_quantile : float -> float;          (* standard normal *)
  poisson_quantile : float -> float -> float   (* mu, q: least k with cdf(k; mu) >= q *)
}.

Definition norm_ppf (d : quantiles) (q : float) (loc scale : float) : result float :=
  Ok (norm_quantile d q * scale + loc)%float.

Definition poisson_ppf (d : quantiles) (q : float) (mu : option float) (loc : float)
  : result float :=
  match mu with
  | None => Raise TypeError   (* missing required positional argument 'mu' *)
  | Some mu => Ok (poisson_quantile d mu q + loc)%float
  end.
End scipy_stats.

(** ** Prior classes *)

Module UniformPrior.
Record t : Type := __init__ { lbound : float; ubound : float }.

Definition __call__ (self : t) (cube : float) : float :=
  (cube * (ubound self - lbound self) + lbound self)%float.
End UniformPrior.

Module GaussianPrior.
Record t : Type := __init__ { m : float; sigma : float }.

(** [norm.ppf(cube, scale=self.sigma, loc=self.m)] *)
Definition __call__ (sp : scipy_stats.quantiles) (self : t) (cube : float)
  : result float :=
  scipy_stats.norm_ppf sp cube (m self) (sigma self).
End GaussianPrior.

Module PoissonPrior.
Record t : Type := __init__ { m : float }.

(** [poisson.ppf(cube, loc=self.m)]: no shape argument is passed. *)
Definition __call__ (sp : scipy_stats.quantiles) (self : t) (cube : float)
  : result float :=
  scipy_stats.poisson_ppf sp cube None (m self).
End PoissonPrior.

Module FixedPrior.
Record t : Type := __init__ { val : float }.

Definition __call__ (self : t) (cube : float) : float := val self.
End FixedPrior.

(** What a prior dictionary holds: any object callable on one cube
    coordinate. *)
Definition prior : Type := float -> result float.

Definition uniform (lbound ubound : float) : prior :=
  fun cube => Ok (UniformPrior.__call__ (UniformPrior.__init__ lbound ubound) cube).
Definition gaussian (sp : scipy_stats.quantiles) (m sigma : float) : prior :=
  GaussianPrior.__call__ sp (GaussianPrior.__init__ m sigma).
Definition poisson (sp : scipy_stats.quantiles) (m : float) : prior :=
  PoissonPrior.__call__ sp (PoissonPrior.__init__ m).
Definition fixed (val : float) : prior :=
  fun cube => Ok (FixedPrior.__call__ (FixedPrior.__init__ val) cube).

(** ** PriorCollections *)

Module PriorCollections.
Record t : Type := Build { priors : dict prior }.

Definition __init__ (prior_dict : dict prior) (parameter_order : list string)
  : t :=
  {| priors := prior_dict |}.

(** The cube is the store: it is transformed in place and nothing is
    returned.  [ndim] is not read. *)
Definition prior_transform (self : t) (ndim nparam : nat) : M (list float) unit :=
  for_in (seq 0 nparam) (fun i =>
    p <- lift (getitem (values (priors self)) i) ;;
    cube <- get ;;
    c <- lift (getitem cube i) ;;
    v <- lift (p c) ;;
    setitem i v).
End PriorCollections.

(** ** Spectra and the grid model (external collaborators) *)

(** [Spectrum1D]; the fields are the [.value] arrays. *)
Record Spectrum1D : Type := {
  wavelength : list float;
  flux : list float;
  uncertainty : list float
}.

(** A specgrid model: its declared parameter names and [evaluate],
    called with keyword arguments. *)
Record Model : Type := {
  parameters : list string;
  evaluate : dict float -> result Spectrum1D
}.

(** ** Likelihood *)

Module Likelihood.
Record t : Type := Build {
  model : Model;
  parameter_names : list string;
  data : Spectrum1D
}.

Definition __init__ (spectrum : Spectrum1D) (model_star : Model)
    (parameter_names : list string) : t :=
  {| model := model_star; parameter_names := parameter_names; data := spectrum |}.

(** numpy evaluates [x**2] on a float64 array as the square [x*x]. *)
Definition __call__ (self : t) (model_param : list float) (ndim nparam : nat)
  : result float :=
  let param_dict := OrderedDict (zip (parameter_names self) model_param) in
  m <~ evaluate (model self) param_dict ;;
  diff <~ np.broadcast PrimFloat.sub (flux (data self)) (flux m) ;;
  ratio <~ np.broadcast PrimFloat.div diff (uncertainty (data self)) ;;
  Ok (np.sum (map (PrimFloat.mul (-0.5)) (map (fun x => x * x)%float ratio))).
End Likelihood.

(** ** pymultinest (external)

    The sampler and the analyzer communicate through files under the output
    prefix.  [get_stats] returns a dictionary with the keys ['modes'],
    ['global evidence'] and ['marginals']; a mode has ['mean'] and ['sigma'],
    a marginal has ['median'], ['1sigma'], ['3sigma'] and ['5sigma']. *)

Record Mode : Type := {
  mode_mean : list float;
  mode_sigma : list float
}.

Record Marginal : Type := {
  median : float;
  interval_1sigma : float * float;
  interval_3sigma : float * float;
  interval_5sigma : float * float
}.

Record Stats : Type := {
  modes : list Mode;
  global_evidence : float;
  marginals : list Marginal
}.

Inductive File : Type :=
| ParamsJson (names : list string)   (* written by [json.dump] *)
| StatsDat (s : Stats)               (* what the analyzer reads back *)
| OtherFile.

Abbreviation FS := (gmap string File).

(** [os.path.exists(path)] *)
Definition path_exists (path : string) : M FS bool :=
  fun fs => (fs, Ok (bool_decide (is_Some (fs !! path)))).

(** [json.dump(names, open(path, 'w'))]; [open] raises [IOError] where the
    file system refuses the path. *)
Definition json_dump (writable : string -> bool) (names : list string)
    (path : string) : M FS unit :=
  if writable path then modify (fun fs : FS => <[path := ParamsJson names]> fs)
  else raise IOError.

Module Analyzer.
Record t : Type := __init__ { outputfiles_basename : string; n_params : nat }.

Definition get_stats (self : t) : M FS Stats :=
  fun fs => match fs !! (outputfiles_basename self +:+ "stats.dat") with
            | Some (StatsDat s) => (fs, Ok s)
            | _ => (fs, Raise IOError)
            end.
End Analyzer.

(** An instance attribute that may not exist; reading a missing one raises
    [AttributeError].  An attribute that exists and holds [None] is an
    [option]. *)
Inductive attr (A : Type) : Type :=
| Missing
| Has (a : A).
Arguments Missing {A}.
Arguments Has {A} a.

Definition likelihood_fn : Type := list float -> nat -> nat -> result float.
Definition transform_fn : Type := nat -> nat -> M (list float) unit.

(** ** FitMultinest *)

Module FitMultinest.
Record t : Type := Build {
  spectrum : Spectrum1D;
  model : Model;
  parameter_names : list string;
  priors : PriorCollections.t;
  n_params : nat;
  basename : string;
  likelihood : attr likelihood_fn;
  fit_mean : option (list float);
  sigma : option (list float);
  evidence : option float;
  sigma1 : option (list (float * float));
  sigma3 : option (list (float * float));
  analyzer : option Analyzer.t;
  stats : attr Stats;
  mean : attr (list float)
}.

Definition __init__ (spectrum : Spectrum1D) (priors : dict prior)
    (model_star : Model) (likelihood : option likelihood_fn)
    (basename : string) : result t :=
  parameter_names <~
    sorted_by (fun key => list_index key (parameters model_star)) (keys priors) ;;
  pairs <~ list_comp (fun key => p <~ dict_getitem priors key ;; Ok (key, p))
             parameter_names ;;
  let priors := OrderedDict pairs in
  Ok {| spectrum := spectrum;
        model := model_star;
        parameter_names := parameter_names;
        priors := PriorCollections.__init__ priors (parameters model_star);
        n_params := length priors;
        basename := basename;
        likelihood :=
          match likelihood with
          | None => Has (Likelihood.__call__
                           (Likelihood.__init__ spectrum model_star parameter_names))
          | Some _ => Missing
          end;
        fit_mean := None;
        sigma := None;
        evidence := None;
        sigma1 := None;
        sigma3 := None;
        analyzer := None;
        stats := Missing;
        mean := Missing |}.

(** [self.name = v] for the attributes assigned by [run]. *)
Definition set_sigma (v : option (list float)) (self : t) : t :=
  {| spectrum := spectrum self;
     model := model self;
     parameter_names := parameter_names self;
     priors := priors self;
     n_params := n_params self;
     basename := basename self;
     likelihood := likelihood self;
     fit_mean := fit_mean self;
     sigma := v;
     evidence := evidence self;
     sigma1 := sigma1 self;
     sigma3 := sigma3 self;
     analyzer := analyzer self;
     stats := stats self;
     mean := mean self |}.
Definition set_evidence (v : option float) (self : t) : t :=
  {| spectrum := spectrum self;
     model := model self;
     parameter_names := parameter_names self;
     priors := priors self;
     n_params := n_params self;
     basename := basename self;
     likelihood := likelihood self;
     fit_mean := fit_mean self;
     sigma := sigma self;
     evidence := v;
     sigma1 := sigma1 self;
     sigma3 := sigma3 self;
     analyzer := analyzer self;
     stats := stats self;
     mean := mean self |}.
Definition set_sigma1 (v : option (list (float * float))) (self : t) : t :=
  {| spectrum := spectrum self;
     model := model self;
     parameter_names := parameter_names self;
     priors := priors self;
     n_params := n_params self;
     basename := basename self;
     likelihood := likelihood self;
     fit_mean := fit_mean self;
     sigma := sigma self;
     evidence := evidence self;
     sigma1 := v;
     sigma3 := sigma3 self;
     analyzer := analyzer self;
     stats := stats self;
     mean := mean self |}.
Definition set_sigma3 (v : option (list (float * float))) (self : t) : t :=
  {| spectrum := spectrum self;
     model := model self;
     parameter_names := parameter_names self;
     priors := priors self;
     n_params := n_params self;
     basename := basename self;
     likelihood := likelihood self;
     fit_mean := fit_mean self;
     sigma := sigma self;
     evidence := evidence self;
     sigma1 := sigma1 self;
     sigma3 := v;
     analyzer := analyzer self;
     stats := stats self;
     mean := mean self |}.
Definition set_analyzer (v : option Analyzer.t) (self : t) : t :=
  {| spectrum := spectrum self;
     model := model self;
     parameter_names := parameter_names self;
     priors := priors self;
     n_params := n_params self;
     basename := basename self;
     likelihood := likelihood self;
     fit_mean := fit_mean self;
     sigma := sigma self;
     evidence := evidence self;
     sigma1 := sigma1 self;
     sigma3 := sigma3 self;
     analyzer := v;
     stats := stats self;
     mean := mean self |}.
Definition set_stats (v : attr Stats) (self : t) : t :=
  {| spectrum := spectrum self;
     model := model self;
     parameter_names := parameter_names self;
     priors := priors self;
     n_params := n_params self;
     basename := basename self;
     likelihood := likelihood self;
     fit_mean := fit_mean self;
     sigma := sigma self;
     evidence := evidence self;
     sigma1 := sigma1 self;
     sigma3 := sigma3 self;
     analyzer := analyzer self;
     stats := v;
     mean := mean self |}.
Definition set_mean (v : attr (list float)) (self : t) : t :=
  {| spectrum := spectrum self;
     model := model self;
     parameter_names := parameter_names self;
     priors := priors self;
     n_params := n_params self;
     basename := basename self;
     likelihood := likelihood self;
     fit_mean := fit_mean self;
     sigma := sigma self;
     evidence := evidence self;
     sigma1 := sigma1 self;
     sigma3 := sigma3 self;
     analyzer := analyzer self;
     stats := stats self;
     mean := v |}.

(** The world outside: the sampling engine, which reads the two callbacks
    and writes its output files; the paths that can be opened for writing;
    and everything under [if not(no_plots)] (matplotlib, the model evaluated
    at the mean, [mkplots]), which writes figures and assigns no attribute. *)
Record World : Type := {
  pymultinest_run :
    likelihood_fn -> transform_fn -> nat -> string -> bool -> bool -> M FS unit;
  writable : string -> bool;
  plots : t -> M FS unit
}.

(** [run] works on the instance and on the files. *)
Definition getattr {A} (name : t -> attr A) : M (t * FS) A :=
  fun s => match name s.1 with
           | Has a => (s, Ok a)
           | Missing => (s, Raise AttributeError)
           end.

Definition setattr (set : t -> t) : M (t * FS) unit :=
  modify (fun s : t * FS => (set s.1, s.2)).

Definition self_ : M (t * FS) t := fun s => (s, Ok s.1).

Definition io {A} (c : M FS A) : M (t * FS) A :=
  fun s => let '(fs, r) := c s.2 in ((s.1, fs), r).

(** The loop filling the local lists [sigma1] and [sigma3]. *)
Fixpoint intervals (marginals : list Marginal) (idx : list nat)
    (sigma1 sigma3 : list (float * float)) : result (list (float * float) * list (float * float)) :=
  match idx with
  | [] => Ok (sigma1, sigma3)
  | i :: rest =>
      m1 <~ getitem marginals i ;;
      let sigma1 := sigma1 ++ [interval_1sigma m1] in
      m3 <~ getitem marginals i ;;
      let sigma3 := sigma3 ++ [interval_3sigma m3] in
      intervals marginals rest sigma1 sigma3
  end.

Definition run (w : World) (no_plots resume verbose : bool) : M (t * FS) unit :=
  self <- self_ ;;
  lk <- getattr likelihood ;;
  io (pymultinest_run w lk (PriorCollections.prior_transform (priors self))
        (n_params self) (basename self) resume verbose) ;;;
  io (json_dump (writable w) (parameter_names self)
        (basename self +:+ "params.json")) ;;;
  let a := Analyzer.__init__ (basename self) (n_params self) in
  setattr (set_analyzer (Some a)) ;;;
  found <- io (path_exists (basename self +:+ "stats.dat")) ;;
  if found : bool then
    s <- io (Analyzer.get_stats a) ;;
    setattr (set_stats (Has s)) ;;;
    modes0 <- lift (getitem (modes s) 0) ;;
    setattr (set_mean (Has (mode_mean modes0))) ;;;
    setattr (set_sigma (Some (mode_sigma modes0))) ;;;
    setattr (set_evidence (Some (global_evidence s))) ;;;
    both <- lift (intervals (marginals s) (seq 0 (n_params self)) [] []) ;;
    setattr (set_sigma1 (Some both.1)) ;;;
    setattr (set_sigma3 (Some both.2)) ;;;
    if no_plots then ret tt
    else (self <- self_ ;; io (plots w self))
  else ret tt.
End FitMultinest.

(** * Definitions used to state the properties *)

(** ** Reading binary64 values through their specification

    [Prim2SF] gives the sign, mantissa and exponent of a float; the
    predicates below classify such a value. *)





Definition sf_finite (x : spec_float) : Prop :=
  match x with
  | S754_zero _ | S754_finite _ _ _ => True
  | _ => False
  end.




(** One iteration of the loop body, over the list [vals] returned by
    [self.priors.values()]. *)
Definition transform_body (vals : list prior) (i : nat) : M (list float) unit :=
  p <- lift (getitem vals i) ;;
  cube <- get ;;
  c <- lift (getitem cube i) ;;
  v <- lift (p c) ;;
  setitem i v.

(** The instance as [run] leaves it when the statistics file is there, with
    first mode [md] and a marginal for every parameter. *)
Definition summarized (self : FitMultinest.t) (s : Stats) (md : Mode)
  : FitMultinest.t :=
  FitMultinest.set_sigma3 (Some (map interval_3sigma (take (FitMultinest.n_params self) (marginals s))))
    (FitMultinest.set_sigma1 (Some (map interval_1sigma (take (FitMultinest.n_params self) (marginals s))))
      (FitMultinest.set_evidence (Some (global_evidence s))
        (FitMultinest.set_sigma (Some (mode_sigma md))
          (FitMultinest.set_mean (Has (mode_mean md))
            (FitMultinest.set_stats (Has s)
              (FitMultinest.set_analyzer
                 (Some (Analyzer.__init__ (FitMultinest.basename self) (FitMultinest.n_params self)))
                 self)))))).

(** [a] is declared no later than [b] in the parameter list [params]. *)
Definition declared_before (params : list string) (a b : string) : Prop :=
  exists i j, list_index a params = Ok i /\ list_index b params = Ok j /\ i <= j.

(** * A sample fit, for concrete evaluation *)

Section samples.
Local Open Scope float_scope.

Definition sample_spectrum : Spectrum1D :=
  {| wavelength := [4000; 4001; 4002];
     flux := [1; 2; 4];
     uncertainty := [1; 1; 2] |}.

(** A two-parameter grid whose flux at the last point follows [logg]. *)
Definition sample_model : Model :=
  {| parameters := ["teff"; "logg"]%string;
     evaluate := fun kwargs =>
       teff <~ dict_getitem kwargs "teff" ;;
       logg <~ dict_getitem kwargs "logg" ;;
       Ok {| wavelength := [4000; 4001; 4002];
             flux := [1; 2; logg];
             uncertainty := [] |} |}.

Definition sample_priors : dict prior :=
  [("logg", fixed 3); ("teff", uniform 0 10)]%string.

Definition sample_likelihood : Likelihood.t :=
  Likelihood.__init__ sample_spectrum sample_model ["teff"; "logg"]%string.

Definition sample_fit : FitMultinest.t :=
  {| FitMultinest.spectrum := sample_spectrum;
     FitMultinest.model := sample_model;
     FitMultinest.parameter_names := ["teff"; "logg"]%string;
     FitMultinest.priors :=
       PriorCollections.__init__
         [("teff", uniform 0 10); ("logg", fixed 3)]%string
         ["teff"; "logg"]%string;
     FitMultinest.n_params := 2;
     FitMultinest.basename := "chains/spectrumFit_";
     FitMultinest.likelihood := Has (Likelihood.__call__ sample_likelihood);
     FitMultinest.fit_mean := None;
     FitMultinest.sigma := None;
     FitMultinest.evidence := None;
     FitMultinest.sigma1 := None;
     FitMultinest.sigma3 := None;
     FitMultinest.analyzer := None;
     FitMultinest.stats := Missing;
     FitMultinest.mean := Missing |}.

Definition sample_stats : Stats :=
  {| modes := [ {| mode_mean := [5; 3]; mode_sigma := [0.5; 0] |};
                {| mode_mean := [8; 3]; mode_sigma := [0.25; 0] |} ];
     global_evidence := (-3.5);
     marginals :=
       [ {| median := 5; interval_1sigma := (4.5, 5.5);
            interval_3sigma := (3.5, 6.5); interval_5sigma := (2.5, 7.5) |};
         {| median := 3; interval_1sigma := (3, 3);
            interval_3sigma := (3, 3); interval_5sigma := (3, 3) |} ] |}.

(** An engine that leaves no statistics file behind, and one that does. *)
Definition silent_world : FitMultinest.World :=
  {| FitMultinest.pymultinest_run := fun _ _ _ prefix _ _ =>
       modify (fun fs : FS => <[prefix +:+ ".txt" := OtherFile]> fs);
     FitMultinest.writable := fun _ => true;
     FitMultinest.plots := fun _ => ret tt |}.

Definition sampling_world : FitMultinest.World :=
  {| FitMultinest.pymultinest_run := fun _ _ _ prefix _ _ =>
       modify (fun fs : FS => <[prefix +:+ "stats.dat" := StatsDat sample_stats]> fs);
     FitMultinest.writable := fun _ => true;
     FitMultinest.plots := fun _ => raise EngineError |}.
End samples.

(** * Further sample data *)

Section more_samples.
Local Open Scope float_scope.

(** An instance constructed with a likelihood of the caller's own. *)
Definition flat_likelihood : likelihood_fn := fun _ _ _ => Ok 0.

Definition sample_fit_own_likelihood : FitMultinest.t :=
  {| FitMultinest.spectrum := sample_spectrum;
     FitMultinest.model := sample_model;
     FitMultinest.parameter_names := ["teff"; "logg"]%string;
     FitMultinest.priors :=
       PriorCollections.__init__
         [("teff", uniform 0 10); ("logg", fixed 3)]%string
         ["teff"; "logg"]%string;
     FitMultinest.n_params := 2;
     FitMultinest.basename := "chains/spectrumFit_";
     FitMultinest.likelihood := Missing;
     FitMultinest.fit_mean := None;
     FitMultinest.sigma := None;
     FitMultinest.evidence := None;
     FitMultinest.sigma1 := None;
     FitMultinest.sigma3 := None;
     FitMultinest.analyzer := None;
     FitMultinest.stats := Missing;
     FitMultinest.mean := Missing |}.

(** A sampler that raises, and samplers that leave a given statistics file. *)
Definition failing_world : FitMultinest.World :=
  {| FitMultinest.pymultinest_run := fun _ _ _ _ _ _ => raise EngineError;
     FitMultinest.writable := fun _ => true;
     FitMultinest.plots := fun _ => ret tt |}.

Definition world_leaving (s : Stats) : FitMultinest.World :=
  {| FitMultinest.pymultinest_run := fun _ _ _ prefix _ _ =>
       modify (fun fs : FS => <[prefix +:+ "stats.dat" := StatsDat s]> fs);
     FitMultinest.writable := fun _ => true;
     FitMultinest.plots := fun _ => ret tt |}.

Definition stats_without_modes : Stats :=
  {| modes := []; global_evidence := (-3.5); marginals := marginals sample_stats |}.

(** Stand-ins for scipy's numerical quantile routines. *)
Definition sample_quantiles : scipy_stats.quantiles :=
  {| scipy_stats.norm_quantile := fun q => q - 0.5;
     scipy_stats.poisson_quantile := fun mu q => mu |}.





(** A grid evaluated on two points only. *)
Definition coarse_model : Model :=
  {| parameters := ["teff"; "logg"]%string;
     evaluate := fun kwargs =>
       Ok {| wavelength := [4000; 4002]; flux := [1; 4]; uncertainty := [] |} |}.

Definition stats_one_marginal : Stats :=
  {| modes := modes sample_stats; global_evidence := (-3.5);
     marginals := take 1 (marginals sample_stats) |}.
End more_samples.

(** * Properties *)


(** ** Likelihood *)



(** ** Binary64 arithmetic: signs and zeros *)

Section floats.
Local Open Scope float_scope.





















Lemma sf_finite_number x : sf_finite x -> x <> S754_nan.
Proof. by destruct x. Qed.













End floats.

(** ** PriorCollections.prior_transform *)

Section prior_transform.
Import PriorCollections.


Lemma prior_transform_unfold self ndim nparam :
  prior_transform self ndim nparam
  = for_in (seq 0 nparam) (transform_body (values (priors self))).
Proof. reflexivity. Qed.

Lemma transform_body_ok (vals : list prior) i (cube : list float) (p : prior) c v :
  vals !! i = Some p -> cube !! i = Some c -> p c = Ok v ->
  transform_body vals i cube = (<[i := v]> cube, Ok tt).
Proof.
  intros Hp Hc Hv. unfold transform_body, bind, lift, get, getitem, setitem.
  rewrite Hp, Hc, Hv. apply lookup_lt_Some in Hc.
  by rewrite decide_True.
Qed.

Lemma transform_body_cases (vals : list prior) i (cube : list float) :
  (exists (p : prior) c v, vals !! i = Some p /\ cube !! i = Some c /\ p c = Ok v /\
     transform_body vals i cube = (<[i := v]> cube, Ok tt)) \/
  (exists e, transform_body vals i cube = (cube, Raise e) /\
     ((forall (p : prior) c, p ∈ vals -> exists v, p c = Ok v) -> e = IndexError)).
Proof.
  destruct (vals !! i) as [p|] eqn:Hp; last first.
  { right. exists IndexError. split; [|done].
    unfold transform_body, bind, lift, getitem. by rewrite Hp. }
  destruct (cube !! i) as [c|] eqn:Hc; last first.
  { right. exists IndexError. split; [|done].
    unfold transform_body, bind, lift, get, getitem. by rewrite Hp, Hc. }
  destruct (p c) as [v|e] eqn:Hv.
  - left. exists p, c, v. eauto using transform_body_ok.
  - right. exists e. split.
    + unfold transform_body, bind, lift, get, getitem. by rewrite Hp, Hc, Hv.
    + intros Hpure. destruct (Hpure p c) as [v Hv']; [|congruence].
      by eapply list_elem_of_lookup_2.
Qed.

Lemma for_in_cons {S} i idx (body : nat -> M S unit) s :
  for_in (i :: idx) body s
  = match body i s with
    | (s', Ok _) => for_in idx body s'
    | (s', Raise e) => (s', Raise e)
    end.
Proof. reflexivity. Qed.

(** The loop over [k, k+n) when the cube is long enough and every prior
    returns: exactly those entries are replaced. *)
Lemma transform_loop_ok (vals : list prior) n : forall k (cube : list float),
  k + n <= length cube ->
  (forall j, k <= j < k + n ->
     exists (p : prior) c v, vals !! j = Some p /\ cube !! j = Some c /\ p c = Ok v) ->
  exists cube',
    for_in (seq k n) (transform_body vals) cube = (cube', Ok tt) /\
    length cube' = length cube /\
    (forall j, j < k \/ k + n <= j -> cube' !! j = cube !! j) /\
    (forall j (p : prior) c v, k <= j < k + n -> vals !! j = Some p ->
       cube !! j = Some c -> p c = Ok v -> cube' !! j = Some v).
Proof.
  induction n as [|n IH]; intros k cube Hlen Hall.
  { exists cube. split; [done|]. split; [done|]. split; [done|]. intros; lia. }
  destruct (Hall k) as (p & c & v & Hp & Hc & Hv); [lia|].
  destruct (IH (S k) (<[k := v]> cube)) as (cube' & Hrun & Hl & Hout & Hin).
  { rewrite length_insert. lia. }
  { intros j Hj. destruct (Hall j) as (p' & c' & v' & ? & ? & ?); [lia|].
    exists p', c', v'. rewrite list_lookup_insert_ne by lia. done. }
  exists cube'. split; [|split; [|split]].
  - cbn [seq]. rewrite for_in_cons, (transform_body_ok _ _ _ p c v) by done. done.
  - by rewrite Hl, length_insert.
  - intros j Hj. rewrite Hout by lia. apply list_lookup_insert_ne. lia.
  - intros j p' c' v' Hj Hp' Hc' Hv'. destruct (decide (j = k)) as [->|Hne].
    + rewrite Hout by lia. simplify_eq.
      assert (v' = v) as -> by congruence. apply list_lookup_insert_eq.
      by eapply lookup_lt_Some.
    + eapply Hin; [lia | done | | done].
      rewrite list_lookup_insert_ne by lia. done.
Qed.

(** The loop over [k, k+n) when it runs past the end of the cube: an
    exception escapes, and the cube keeps its length. *)
Lemma transform_loop_short (vals : list prior) n : forall k (cube : list float),
  k <= length cube -> length cube < k + n ->
  exists cube' e,
    for_in (seq k n) (transform_body vals) cube = (cube', Raise e) /\
    length cube' = length cube /\
    ((forall (p : prior) c, p ∈ vals -> exists v, p c = Ok v) -> e = IndexError).
Proof.
  induction n as [|n IH]; intros k cube Hk Hlen; [lia|].
  cbn [seq]. setoid_rewrite for_in_cons.
  destruct (transform_body_cases vals k cube)
    as [(p & c & v & Hp & Hc & Hv & ->) | (e & -> & He)].
  - apply lookup_lt_Some in Hc.
    destruct (IH (S k) (<[k := v]> cube)) as (cube' & e & Hrun & Hl & He).
    { rewrite length_insert. lia. }
    { rewrite length_insert. lia. }
    exists cube', e. by rewrite Hrun, Hl, length_insert.
  - by exists cube, e.
Qed.
End prior_transform.

(** ** FitMultinest.__init__ *)

Section init.
Lemma list_index_absent (x : string) (l : list string) :
  x ∉ l -> list_index x l = Raise ValueError.
Proof.
  induction l as [|y l IH]; intros Hx; simpl; [done|].
  apply not_elem_of_cons in Hx as [Hne Hx].
  rewrite decide_False by done. by rewrite IH.
Qed.

Lemma list_index_raises (x : string) (l : list string) e :
  list_index x l = Raise e -> e = ValueError.
Proof.
  induction l as [|y l IH]; simpl; [congruence|].
  case_decide; [done|].
  destruct (list_index x l); simpl; [done|]. intros; apply IH; congruence.
Qed.

(** A comprehension raises as soon as one element does. *)
Lemma list_comp_raises {A B} (f : A -> result B) (l : list A) (x : A) (e0 : exn) :
  x ∈ l -> f x = Raise e0 ->
  (forall y e, f y = Raise e -> e = e0) ->
  list_comp f l = Raise e0.
Proof.
  intros Hx Hfx Hall. induction l as [|y l IH]; [by apply elem_of_nil in Hx|].
  simpl. destruct (f y) as [b|e] eqn:Hy; simpl.
  - apply elem_of_cons in Hx as [->|Hx]; [congruence|]. by rewrite IH.
  - by rewrite (Hall y e Hy).
Qed.

Lemma sorted_by_raises (f : string -> result nat) (l : list string) x e0 :
  x ∈ l -> f x = Raise e0 ->
  (forall y e, f y = Raise e -> e = e0) ->
  sorted_by f l = Raise e0.
Proof.
  intros Hx Hfx Hall. unfold sorted_by.
  rewrite (list_comp_raises _ l x e0); [done | done | |].
  - by rewrite Hfx.
  - intros y e. destruct (f y) as [k|e'] eqn:Hy; simpl; [done|].
    intros [= <-]. eauto.
Qed.

Lemma init_fresh spectrum priors model_star likelihood basename self :
  FitMultinest.__init__ spectrum priors model_star likelihood basename = Ok self ->
  FitMultinest.fit_mean self = None /\
  FitMultinest.sigma self = None /\
  FitMultinest.evidence self = None /\
  FitMultinest.sigma1 self = None /\
  FitMultinest.sigma3 self = None /\
  FitMultinest.analyzer self = None /\
  FitMultinest.stats self = Missing /\
  FitMultinest.mean self = Missing /\
  FitMultinest.basename self = basename.
Proof.
  unfold FitMultinest.__init__.
  destruct (sorted_by _ _) as [names|]; simpl; [|done].
  destruct (list_comp _ names) as [pairs|]; simpl; [|done].
  intros [= <-]. simpl. done.
Qed.
End init.

(** ** FitMultinest.run *)

Section run.
Import FitMultinest.

Lemma append_inj_l (s a b : string) : s +:+ a = s +:+ b -> a = b.
Proof. induction s as [|c s IH]; simpl; [done|]. intros [= H]. auto. Qed.

Lemma stats_path_fresh (prefix : string) (names : list string) (fs : FS) :
  <[prefix +:+ "params.json" := ParamsJson names]> fs !! (prefix +:+ "stats.dat")
  = fs !! (prefix +:+ "stats.dat").
Proof.
  apply lookup_insert_ne. intros H. by apply append_inj_l in H.
Qed.

(** The interval loop over [k, k+n) appends the intervals of the marginals
    at those positions, in order. *)
Lemma intervals_ok (marginals : list Marginal) n : forall k acc1 acc3,
  k + n <= length marginals ->
  intervals marginals (seq k n) acc1 acc3
  = Ok (acc1 ++ map interval_1sigma (take n (drop k marginals)),
        acc3 ++ map interval_3sigma (take n (drop k marginals))).
Proof.
  induction n as [|n IH]; intros k acc1 acc3 Hlen; simpl.
  { by rewrite !app_nil_r. }
  destruct (lookup_lt_is_Some_2 marginals k) as [m Hm]; [lia|].
  unfold getitem. rewrite Hm. simpl. rewrite IH by lia.
  rewrite (drop_S _ _ _ Hm). simpl. by rewrite <- !app_assoc.
Qed.

(** The state in which [run] leaves the instance when the statistics file
    is absent: only [analyzer] has been assigned. *)
Lemma run_missing_stats (w : World) (self : t) (fs fs1 : FS) lk
    (no_plots resume verbose : bool) :
  likelihood self = Has lk ->
  pymultinest_run w lk (PriorCollections.prior_transform (priors self))
    (n_params self) (basename self) resume verbose fs = (fs1, Ok tt) ->
  writable w (basename self +:+ "params.json") = true ->
  fs1 !! (basename self +:+ "stats.dat") = None ->
  run w no_plots resume verbose (self, fs)
  = ((set_analyzer (Some (Analyzer.__init__ (basename self) (n_params self))) self,
      <[basename self +:+ "params.json" := ParamsJson (parameter_names self)]> fs1),
     Ok tt).
Proof.
  intros Hlk Hrun Hw Hstats.
  unfold run, bind, self_, getattr, io, setattr, json_dump, path_exists.
  cbn [fst snd]. rewrite Hlk. cbn [fst snd]. rewrite Hrun. cbn [fst snd].
  rewrite Hw. unfold modify, ret. cbn [fst snd].
  rewrite stats_path_fresh, Hstats. reflexivity.
Qed.


Lemma run_with_stats (w : World) (self : t) (fs fs1 : FS) lk (s : Stats) (md : Mode)
    (no_plots resume verbose : bool) :
  likelihood self = Has lk ->
  pymultinest_run w lk (PriorCollections.prior_transform (priors self))
    (n_params self) (basename self) resume verbose fs = (fs1, Ok tt) ->
  writable w (basename self +:+ "params.json") = true ->
  fs1 !! (basename self +:+ "stats.dat") = Some (StatsDat s) ->
  modes s !! 0 = Some md ->
  n_params self <= length (marginals s) ->
  let fs2 := <[basename self +:+ "params.json" := ParamsJson (parameter_names self)]> fs1 in
  run w no_plots resume verbose (self, fs)
  = if no_plots then ((summarized self s md, fs2), Ok tt)
    else let '(fs3, r) := plots w (summarized self s md) fs2 in
         ((summarized self s md, fs3), r).
Proof.
  intros Hlk Hrun Hw Hstats Hmode Hlen fs2.
  unfold run, bind, self_, getattr, io, setattr, json_dump, path_exists,
    Analyzer.get_stats, lift, getitem.
  cbn [fst snd]. rewrite Hlk. cbn [fst snd]. rewrite Hrun. cbn [fst snd].
  rewrite Hw. unfold modify, ret. cbn [fst snd].
  rewrite stats_path_fresh, Hstats.
  rewrite bool_decide_eq_true_2 by eauto.
  cbn [fst snd Analyzer.outputfiles_basename].
  rewrite stats_path_fresh, Hstats. cbn [fst snd].
  rewrite Hmode. rewrite (intervals_ok _ _ 0) by (simpl; lia). simpl.
  rewrite drop_0. destruct no_plots; reflexivity.
Qed.
End run.


Example sample_fit_constructed :
  FitMultinest.__init__ sample_spectrum sample_priors sample_model None
    "chains/spectrumFit_" = Ok sample_fit.
Proof. reflexivity. Qed.


(** * The claims *)

Section claims.
Local Open Scope float_scope.
Import FitMultinest.









(** C5 (the code departs from the claim).  [PoissonPrior(m)(cube)] never
    returns a Poisson quantile: the mean is handed to scipy as [loc] and the
    required shape parameter is not passed, so every call ends in a
    [TypeError]. *)
Theorem PoissonPrior_call_raises (sp : scipy_stats.quantiles) (m cube : float) :
  PoissonPrior.__call__ sp (PoissonPrior.__init__ m) cube = Raise TypeError.
Proof. reflexivity. Qed.

(** C6, counterexample.  One prior and a cube of length two: the lengths
    differ and the call returns normally. *)
Lemma prior_transform_longer_cube_returns :
  length [0.5; 0.25] <> length [("logg", fixed 3)]%string /\
  PriorCollections.prior_transform
    (PriorCollections.__init__ [("logg", fixed 3)]%string []) 1 1 [0.5; 0.25]
  = ([3; 0.25], Ok tt).
Proof. split; [simpl; lia | reflexivity]. Qed.

(** C6, as amended.  [prior_transform] checks no length.  Called with
    [nparam] the number of priors on a cube of a different length: a shorter
    cube makes the call fail, with the [IndexError] of the access past the
    end of the cube when every prior returns; a longer cube is accepted, its
    entries from index [nparam] on are left unchanged. *)
Theorem prior_transform_length_mismatch
    (prior_dict : dict prior) (parameter_order : list string)
    (cube : list float) (ndim : nat) :
  length cube <> length prior_dict ->
  ((length cube < length prior_dict)%nat ->
     exists (cube' : list float) e,
       PriorCollections.prior_transform
         (PriorCollections.__init__ prior_dict parameter_order)
         ndim (length prior_dict) cube = (cube', Raise e) /\
       length cube' = length cube /\
       ((forall (p : prior) c, p ∈ values prior_dict -> exists v, p c = Ok v) ->
          e = IndexError)) /\
  ((length prior_dict < length cube)%nat ->
     (forall (p : prior) c, p ∈ values prior_dict -> exists v, p c = Ok v) ->
     exists cube' : list float,
       PriorCollections.prior_transform
         (PriorCollections.__init__ prior_dict parameter_order)
         ndim (length prior_dict) cube = (cube', Ok tt) /\
       length cube' = length cube /\
       (forall i, (length prior_dict <= i)%nat -> cube' !! i = cube !! i)).
Proof.
  intros _. split.
  - intros Hshort. rewrite prior_transform_unfold. simpl.
    apply transform_loop_short; simpl; lia.
  - intros Hlong Hret.
    destruct (transform_loop_ok (values prior_dict) (length prior_dict) 0 cube)
      as (cube' & Hrun & Hl & Hout & _).
    { simpl. lia. }
    { intros j Hj.
      destruct (lookup_lt_is_Some_2 (values prior_dict) j) as [p Hp].
      { unfold values. rewrite length_fmap. lia. }
      destruct (lookup_lt_is_Some_2 cube j) as [c Hc]; [lia|].
      destruct (Hret p c) as [v Hv]; [by eapply list_elem_of_lookup_2|].
      by exists p, c, v. }
    exists cube'. split; [by rewrite prior_transform_unfold|].
    split; [done|]. intros i Hi. apply Hout. right. simpl. lia.
Qed.

Lemma prior_transform_length_mismatch_witness :
  exists (cube' : list float) e,
    PriorCollections.prior_transform
      (PriorCollections.__init__ [("teff", uniform 0 10); ("logg", fixed 3)]%string [])
      2 2 [0.5] = (cube', Raise e) /\
    length cube' = 1%nat.
Proof.
  destruct (prior_transform_length_mismatch
              [("teff", uniform 0 10); ("logg", fixed 3)]%string [] [0.5] 2%nat)
    as [Hshort _].
  - simpl. lia.
  - destruct Hshort as (cube' & e & Hrun & Hl & _); [simpl; lia|].
    exists cube', e. split; [exact Hrun | exact Hl].
Defined.

(** C10. The [parameter_order] argument of [PriorCollections.__init__] is
    not used: two collections built from the same dictionary with different
    [parameter_order] transform every cube alike, and the prior applied to
    [cube[i]] is the [i]-th value of the dictionary in its insertion order. *)
Theorem parameter_order_ignored
    (prior_dict : dict prior) (order1 order2 : list string)
    (cube : list float) (ndim nparam : nat) :
  PriorCollections.__init__ prior_dict order1
  = PriorCollections.__init__ prior_dict order2 /\
  PriorCollections.prior_transform (PriorCollections.__init__ prior_dict order1)
    ndim nparam cube
  = PriorCollections.prior_transform (PriorCollections.__init__ prior_dict order2)
      ndim nparam cube /\
  PriorCollections.prior_transform (PriorCollections.__init__ prior_dict order1)
    ndim nparam cube
  = for_in (seq 0 nparam) (transform_body (map snd prior_dict)) cube.
Proof. repeat split. Qed.
(** C8. Constructing a [FitMultinest] whose prior dictionary has a key that
    is not among the model's declared parameters raises ([ValueError], from
    [model_star.parameters.index]); construction involves no sampling. *)
Theorem init_unknown_parameter_raises
    (spectrum : Spectrum1D) (priors : dict prior) (model_star : Model)
    (likelihood : option likelihood_fn) (basename : string) (key : string) :
  key ∈ keys priors ->
  key ∉ parameters model_star ->
  __init__ spectrum priors model_star likelihood basename = Raise ValueError.
Proof.
  intros Hin Hout. unfold __init__.
  rewrite (sorted_by_raises _ _ key ValueError); [done | done | |].
  - by apply list_index_absent.
  - intros y e. apply list_index_raises.
Qed.

Lemma init_unknown_parameter_raises_witness :
  __init__ sample_spectrum [("vrot", fixed 1); ("teff", uniform 0 10)]%string
    sample_model None "chains/spectrumFit_" = Raise ValueError.
Proof.
  apply (init_unknown_parameter_raises _ _ _ _ _ "vrot"%string).
  - apply (bool_decide_unpack _). vm_compute. exact I.
  - apply (bool_decide_unpack _). vm_compute. exact I.
Defined.

(** C4. When the sampler has returned, the parameter names have been saved
    and the statistics file [basename + 'stats.dat'] does not exist, [run]
    returns normally and leaves [mean], [sigma], [evidence], [sigma1] and
    [sigma3] as they were;
    on a freshly constructed instance they are therefore still unset
    ([mean] does not exist, the other four hold [None]). *)
Theorem run_missing_stats_leaves_results_unset
    (w : World) (self : t) (fs fs1 : FS) (lk : likelihood_fn)
    (no_plots resume verbose : bool) :
  likelihood self = Has lk ->
  pymultinest_run w lk (PriorCollections.prior_transform (priors self))
    (n_params self) (basename self) resume verbose fs = (fs1, Ok tt) ->
  writable w (basename self +:+ "params.json") = true ->
  fs1 !! (basename self +:+ "stats.dat") = None ->
  exists (self' : t) (fs' : FS),
    run w no_plots resume verbose (self, fs) = ((self', fs'), Ok tt) /\
    (mean self' = mean self /\ sigma self' = sigma self /\
     evidence self' = evidence self /\ sigma1 self' = sigma1 self /\
     sigma3 self' = sigma3 self) /\
    (forall spectrum priors model_star prefix,
       __init__ spectrum priors model_star None prefix = Ok self ->
       mean self' = Missing /\ sigma self' = None /\ evidence self' = None /\
       sigma1 self' = None /\ sigma3 self' = None).
Proof.
  intros Hlk Hrun Hw Hstats. eexists _, _. split; [|split].
  - by eapply run_missing_stats.
  - done.
  - intros spectrum priors model_star prefix Hinit.
    apply init_fresh in Hinit as (_ & ? & ? & ? & ? & _ & _ & ? & _). done.
Qed.

Lemma run_missing_stats_leaves_results_unset_witness :
  exists (self' : t) (fs' : FS),
    run silent_world false false false (sample_fit, ∅) = ((self', fs'), Ok tt) /\
    mean self' = Missing /\ sigma self' = None /\ evidence self' = None /\
    sigma1 self' = None /\ sigma3 self' = None.
Proof.
  destruct (run_missing_stats_leaves_results_unset silent_world sample_fit ∅
              (<["chains/spectrumFit_.txt"%string := OtherFile]> ∅)
              (Likelihood.__call__ sample_likelihood) false false false)
    as (self' & fs' & Hrun & _ & Hfresh).
  - reflexivity.
  - reflexivity.
  - reflexivity.
  - vm_compute. reflexivity.
  - exists self', fs'. split; [exact Hrun|].
    apply (Hfresh sample_spectrum sample_priors sample_model "chains/spectrumFit_"%string).
    reflexivity.
Defined.

(** C7, as amended.  When the sampler has returned and the statistics file
    exists and parses to statistics with a first mode and a marginal for
    each of the [n_params] parameters, [run] sets [mean] and [sigma] from the first mode
    only, [evidence] to the global evidence, and [sigma1] and [sigma3] to
    lists of length [n_params] whose [i]-th elements are the 1-sigma and
    3-sigma intervals of the [i]-th marginal; all five are set in that
    branch, whatever the plotting that follows does. *)
Theorem run_with_stats_populates_results
    (w : World) (self : t) (fs fs1 : FS) (lk : likelihood_fn)
    (s : Stats) (md : Mode) (no_plots resume verbose : bool) :
  likelihood self = Has lk ->
  pymultinest_run w lk (PriorCollections.prior_transform (priors self))
    (n_params self) (basename self) resume verbose fs = (fs1, Ok tt) ->
  writable w (basename self +:+ "params.json") = true ->
  fs1 !! (basename self +:+ "stats.dat") = Some (StatsDat s) ->
  modes s !! 0%nat = Some md ->
  (n_params self <= length (marginals s))%nat ->
  exists (self' : t) (fs' : FS) (r : result unit) (l1 l3 : list (float * float)),
    run w no_plots resume verbose (self, fs) = ((self', fs'), r) /\
    (no_plots = true -> r = Ok tt) /\
    mean self' = Has (mode_mean md) /\
    sigma self' = Some (mode_sigma md) /\
    evidence self' = Some (global_evidence s) /\
    sigma1 self' = Some l1 /\ sigma3 self' = Some l3 /\
    l1 = map interval_1sigma (take (n_params self) (marginals s)) /\
    l3 = map interval_3sigma (take (n_params self) (marginals s)) /\
    length l1 = n_params self /\ length l3 = n_params self /\
    (forall i, (i < n_params self)%nat ->
       l1 !! i = interval_1sigma <$> marginals s !! i /\
       l3 !! i = interval_3sigma <$> marginals s !! i).
Proof.
  intros Hlk Hrun Hw Hstats Hmode Hlen.
  pose proof (run_with_stats w self fs fs1 lk s md no_plots resume verbose
                Hlk Hrun Hw Hstats Hmode Hlen) as Heq. cbv zeta in Heq.
  assert (Hlists :
    length (map interval_1sigma (take (n_params self) (marginals s))) = n_params self /\
    length (map interval_3sigma (take (n_params self) (marginals s))) = n_params self /\
    (forall i, (i < n_params self)%nat ->
       map interval_1sigma (take (n_params self) (marginals s)) !! i
       = interval_1sigma <$> marginals s !! i /\
       map interval_3sigma (take (n_params self) (marginals s)) !! i
       = interval_3sigma <$> marginals s !! i)).
  { split; [|split].
    - rewrite length_map, length_take. lia.
    - rewrite length_map, length_take. lia.
    - intros i Hi. rewrite !list_lookup_fmap, !lookup_take_lt by done. done. }
  destruct Hlists as (Hl1 & Hl3 & Hpt).
  destruct no_plots.
  - eexists _, _, _, _, _. split; [exact Heq|].
    split; [done|]. repeat (split; [reflexivity|]).
    split; [exact Hl1|]. split; [exact Hl3|]. exact Hpt.
  - destruct (plots w (summarized self s md) _) as [fs3 r] eqn:Hplots.
    eexists _, _, _, _, _. split; [exact Heq|].
    split; [done|]. repeat (split; [reflexivity|]).
    split; [exact Hl1|]. split; [exact Hl3|]. exact Hpt.
Qed.

Lemma run_with_stats_populates_results_witness :
  exists (self' : t) (fs' : FS) (r : result unit),
    run sampling_world false false false (sample_fit, ∅) = ((self', fs'), r) /\
    mean self' = Has [5; 3] /\
    sigma self' = Some [0.5; 0] /\
    evidence self' = Some (-3.5) /\
    sigma1 self' = Some [(4.5, 5.5); (3, 3)] /\
    sigma3 self' = Some [(3.5, 6.5); (3, 3)].
Proof.
  destruct (run_with_stats_populates_results sampling_world sample_fit ∅
              (<["chains/spectrumFit_stats.dat"%string := StatsDat sample_stats]> ∅)
              (Likelihood.__call__ sample_likelihood) sample_stats
              {| mode_mean := [5; 3]; mode_sigma := [0.5; 0] |} false false false)
    as (self' & fs' & r & l1 & l3 & Hrun & _ & Hm & Hs & He & H1 & H3 & -> & -> & _).
  - reflexivity.
  - reflexivity.
  - reflexivity.
  - vm_compute. reflexivity.
  - reflexivity.
  - simpl. lia.
  - exists self', fs', r. split; [exact Hrun|].
    split; [exact Hm|]. split; [exact Hs|]. split; [exact He|].
    split; [exact H1 | exact H3].
Defined.
(** C9, counterexample.  A freshly constructed instance is run, the sampler
    leaves no statistics file, and afterwards [analyzer] is not [None]. *)
Lemma analyzer_set_after_run_without_stats :
  __init__ sample_spectrum sample_priors sample_model None "chains/spectrumFit_"
  = Ok sample_fit /\
  exists (self' : t) (fs' : FS),
    run silent_world false false false (sample_fit, ∅) = ((self', fs'), Ok tt) /\
    fs' !! "chains/spectrumFit_stats.dat"%string = None /\
    analyzer self' <> None.
Proof.
  split; [reflexivity|]. eexists _, _. split; [|split].
  - apply (run_missing_stats silent_world sample_fit ∅
             (<["chains/spectrumFit_.txt"%string := OtherFile]> ∅)
             (Likelihood.__call__ sample_likelihood));
      [reflexivity | reflexivity | reflexivity |].
    vm_compute. reflexivity.
  - vm_compute. reflexivity.
  - simpl. discriminate.
Qed.

(** C9, as amended.  After construction [sigma], [evidence], [sigma1],
    [sigma3] and [analyzer] exist and hold [None], and there is no attribute
    [mean] (the constructor assigns [fit_mean]), so reading [mean] raises
    [AttributeError].  After a run of such an instance in which the
    statistics file is absent this is still so for [sigma], [evidence],
    [sigma1], [sigma3] and [mean], while [analyzer] holds the analyzer that
    [run] created. *)
Theorem unset_results_after_init_and_run
    (spectrum : Spectrum1D) (priors0 : dict prior) (model_star : Model)
    (likelihood0 : option likelihood_fn) (prefix : string) (self : t) :
  __init__ spectrum priors0 model_star likelihood0 prefix = Ok self ->
  (sigma self = None /\ evidence self = None /\ sigma1 self = None /\
   sigma3 self = None /\ analyzer self = None /\ fit_mean self = None /\
   mean self = Missing /\
   (forall fs : FS, getattr mean (self, fs) = ((self, fs), Raise AttributeError))) /\
  (forall (w : World) (fs fs1 : FS) (lk : likelihood_fn) (no_plots resume verbose : bool),
     likelihood self = Has lk ->
     pymultinest_run w lk (PriorCollections.prior_transform (priors self))
       (n_params self) (basename self) resume verbose fs = (fs1, Ok tt) ->
     writable w (basename self +:+ "params.json") = true ->
     fs1 !! (basename self +:+ "stats.dat") = None ->
     exists (self' : t) (fs' : FS),
       run w no_plots resume verbose (self, fs) = ((self', fs'), Ok tt) /\
       sigma self' = None /\ evidence self' = None /\ sigma1 self' = None /\
       sigma3 self' = None /\ fit_mean self' = None /\ mean self' = Missing /\
       getattr mean (self', fs') = ((self', fs'), Raise AttributeError) /\
       analyzer self' = Some (Analyzer.__init__ prefix (n_params self))).
Proof.
  intros Hinit.
  apply init_fresh in Hinit as (Hfm & Hs & He & H1 & H3 & Ha & _ & Hm & Hb).
  split.
  - repeat (split; [done|]). intros fs. unfold getattr. simpl. by rewrite Hm.
  - intros w fs fs1 lk no_plots resume verbose Hlk Hrun Hw Hstats.
    eexists _, _. split; [by eapply run_missing_stats|].
    repeat (split; [done|]). split.
    + unfold getattr. simpl. by rewrite Hm.
    + simpl. by rewrite Hb.
Qed.

Lemma unset_results_after_init_and_run_witness :
  exists (self' : t) (fs' : FS),
    run silent_world false false false (sample_fit, ∅) = ((self', fs'), Ok tt) /\
    sigma self' = None /\
    getattr mean (self', fs') = ((self', fs'), Raise AttributeError) /\
    analyzer self' = Some (Analyzer.__init__ "chains/spectrumFit_" 2).
Proof.
  destruct (unset_results_after_init_and_run sample_spectrum sample_priors
              sample_model None "chains/spectrumFit_"%string sample_fit)
    as [_ Hrun].
  - reflexivity.
  - destruct (Hrun silent_world ∅
                (<["chains/spectrumFit_.txt"%string := OtherFile]> ∅)
                (Likelihood.__call__ sample_likelihood) false false false)
      as (self' & fs' & Hr & Hs & _ & _ & _ & _ & _ & Hg & Ha).
    + reflexivity.
    + reflexivity.
    + reflexivity.
    + vm_compute. reflexivity.
    + exists self', fs'. split; [exact Hr|]. split; [exact Hs|].
      split; [exact Hg | exact Ha].
Defined.
End claims.

(** * Further properties of the code *)

(** ** Dictionaries, comprehensions and [sorted] *)

Section containers.
Lemma list_index_lookup (x : string) (l : list string) (i : nat) :
  list_index x l = Ok i -> l !! i = Some x.
Proof.
  revert i. induction l as [|y l IH]; intros i; simpl; [done|].
  case_decide as Hxy; [intros [= <-]; by subst|].
  destruct (list_index x l) as [j|] eqn:Hj; simpl; [|done].
  intros [= <-]. simpl. by apply IH.
Qed.

Lemma list_index_elem (x : string) (l : list string) :
  x ∈ l -> exists i, list_index x l = Ok i.
Proof.
  induction l as [|y l IH]; intros Hx; [by apply elem_of_nil in Hx|]. simpl.
  case_decide; [by eexists|].
  apply elem_of_cons in Hx as [?|Hx]; [done|].
  destruct (IH Hx) as [i ->]. by eexists.
Qed.

Lemma list_index_NoDup (l : list string) (i : nat) (x : string) :
  NoDup l -> l !! i = Some x -> list_index x l = Ok i.
Proof.
  intros Hnd Hi. destruct (list_index_elem x l) as [j Hj].
  { by eapply list_elem_of_lookup_2. }
  rewrite Hj. f_equal. apply list_index_lookup in Hj.
  by eapply NoDup_lookup.
Qed.

Lemma list_comp_Forall2 {A B} (f : A -> result B) (l : list A) (ys : list B) :
  list_comp f l = Ok ys <-> Forall2 (fun x y => f x = Ok y) l ys.
Proof.
  revert ys. induction l as [|x l IH]; intros ys; simpl.
  - split; [intros [= <-]; constructor | by inversion 1].
  - destruct (f x) as [y|e] eqn:Hx; simpl.
    + destruct (list_comp f l) as [ys'|e] eqn:Hl; simpl.
      * split.
        -- intros [= <-]. constructor; [done|]. by apply IH.
        -- inversion 1 as [|? y' ? ys'' Hy Hys]; subst.
           apply IH in Hys. congruence.
      * split; [done|]. inversion 1 as [|? y' ? ys'' Hy Hys]; subst.
        apply IH in Hys. done.
    + split; [done|]. inversion 1; congruence.
Qed.

Lemma list_comp_total {A B} (f : A -> result B) (l : list A) :
  (forall x, x ∈ l -> exists y, f x = Ok y) ->
  exists ys, list_comp f l = Ok ys.
Proof.
  induction l as [|x l IH]; intros Hall; simpl; [by eexists|].
  destruct (Hall x) as [y ->]; [by left|]. simpl.
  destruct IH as [ys ->]; [intros; apply Hall; by right|]. by eexists.
Qed.

Lemma list_comp_ext {A B} (f g : A -> result B) (l : list A) :
  (forall x, x ∈ l -> f x = g x) -> list_comp f l = list_comp g l.
Proof.
  induction l as [|x l IH]; intros Hall; simpl; [done|].
  rewrite (Hall x) by (by left). rewrite IH; [done|].
  intros; apply Hall; by right.
Qed.

Lemma dict_getitem_elem {V} (d : dict V) (k : string) (v : V) :
  dict_getitem d k = Ok v -> (k, v) ∈ d.
Proof.
  induction d as [|[k' v'] d IH]; simpl; [done|].
  case_decide; [intros [= <-]; subst; by left | intros; right; auto].
Qed.

Lemma dict_getitem_absent {V} (d : dict V) (k : string) :
  k ∉ keys d -> dict_getitem d k = Raise KeyError.
Proof.
  induction d as [|[k' v'] d IH]; simpl; [done|]. intros Hk.
  apply not_elem_of_cons in Hk as [? ?]. rewrite decide_False by done. auto.
Qed.

Lemma dict_getitem_NoDup {V} (d : dict V) (k : string) (v : V) :
  NoDup (keys d) -> (k, v) ∈ d -> dict_getitem d k = Ok v.
Proof.
  induction d as [|[k' v'] d IH]; simpl; intros Hnd Hin; [by apply elem_of_nil in Hin|].
  apply NoDup_cons in Hnd as [Hk' Hnd].
  apply elem_of_cons in Hin as [[= -> ->]|Hin].
  - by rewrite decide_True.
  - rewrite decide_False; [by apply IH|].
    intros ->. apply Hk'. unfold keys.
    by apply (list_elem_of_fmap_2 fst) in Hin.
Qed.

Lemma dict_getitem_Permutation {V} (d d' : dict V) (k : string) :
  NoDup (keys d) -> d ≡ₚ d' -> dict_getitem d k = dict_getitem d' k.
Proof.
  intros Hnd Hp.
  assert (Hnd' : NoDup (keys d')) by (unfold keys in *; by rewrite <- Hp).
  destruct (decide (k ∈ keys d)) as [Hk|Hk].
  - unfold keys in Hk. apply list_elem_of_fmap in Hk as ([k0 v] & -> & Hin).
    rewrite (dict_getitem_NoDup d _ v) by done.
    rewrite (dict_getitem_NoDup d' _ v); [done | done | by rewrite <- Hp].
  - rewrite !dict_getitem_absent; [done | | done].
    unfold keys in *. by rewrite <- Hp.
Qed.

(** Assigning a new key appends the item. *)
Lemma dict_setitem_new {V} (d : dict V) (k : string) (v : V) :
  k ∉ keys d -> dict_setitem d k v = d ++ [(k, v)].
Proof.
  induction d as [|[k' v'] d IH]; simpl; [done|]. intros Hk.
  apply not_elem_of_cons in Hk as [? ?]. rewrite decide_False by done.
  by rewrite IH.
Qed.

Lemma OrderedDict_NoDup {V} (pairs : list (string * V)) :
  NoDup (keys pairs) -> OrderedDict pairs = pairs.
Proof.
  unfold OrderedDict.
  assert (H : forall l acc : list (string * V), NoDup (keys (acc ++ l)) ->
    foldl (fun d kv => dict_setitem d kv.1 kv.2) acc l = acc ++ l).
  { induction l as [|[k v] l IH]; intros acc Hnd; simpl.
    - by rewrite app_nil_r.
    - rewrite dict_setitem_new.
      + rewrite IH; rewrite <- app_assoc; done.
      + unfold keys in *. rewrite fmap_app in Hnd. apply NoDup_app in Hnd as (_ & Hd & _).
        intros Hk. apply (Hd k Hk). simpl. by left. }
  intros Hnd. by rewrite (H pairs []).
Qed.
End containers.

(** ** [sorted] by position in the model's parameter list *)

Section sorting.
Lemma insert_by_key_Permutation (x : nat * string) (l : list (nat * string)) :
  insert_by_key x l ≡ₚ x :: l.
Proof.
  induction l as [|y l IH]; simpl; [done|].
  case_decide; [done|]. rewrite IH. apply Permutation_swap.
Qed.

Lemma insertion_sort_Permutation (l : list (nat * string)) :
  foldr insert_by_key [] l ≡ₚ l.
Proof.
  induction l as [|x l IH]; simpl; [done|].
  by rewrite insert_by_key_Permutation, IH.
Qed.

Lemma insert_by_key_sorted (x : nat * string) (l : list (nat * string)) :
  StronglySorted (fun a b => a.1 <= b.1) l ->
  StronglySorted (fun a b => a.1 <= b.1) (insert_by_key x l).
Proof.
  induction 1 as [|y l Hl IH Hy]; simpl.
  { repeat constructor. }
  case_decide as Hxy.
  - constructor; [by constructor|].
    constructor; [done|]. eapply Forall_impl; [exact Hy|]. simpl. lia.
  - constructor; [done|].
    rewrite insert_by_key_Permutation. constructor; [lia | done].
Qed.

Lemma insertion_sort_sorted (l : list (nat * string)) :
  StronglySorted (fun a b => a.1 <= b.1) (foldr insert_by_key [] l).
Proof.
  induction l as [|x l IH]; simpl; [constructor|]. by apply insert_by_key_sorted.
Qed.

Lemma StronglySorted_strengthen {A} (R : relation A) (P : A -> Prop) (l : list A) :
  StronglySorted R l -> Forall P l ->
  StronglySorted (fun a b => R a b /\ P a /\ P b) l.
Proof.
  induction 1 as [|x l Hl IH Hx]; intros HP; [constructor|].
  apply Forall_cons in HP as [Px HP]. constructor; [by apply IH|].
  rewrite Forall_forall in *. intros y Hy. auto.
Qed.

Lemma StronglySorted_lookup {A} (R : relation A) (l : list A) :
  (forall i j x y, i < j -> l !! i = Some x -> l !! j = Some y -> R x y) ->
  StronglySorted R l.
Proof.
  induction l as [|x l IH]; intros H; [constructor|]. constructor.
  - apply IH. intros i j a b Hij Ha Hb. by apply (H (S i) (S j) a b); [lia|..].
  - apply Forall_forall. intros y Hy.
    apply list_elem_of_lookup_1 in Hy as [j Hj].
    by apply (H 0 (S j) x y); [lia|..].
Qed.

Lemma StronglySorted_filter {A} (R : relation A) (P : A -> Prop)
    `{!forall x, Decision (P x)} (l : list A) :
  StronglySorted R l -> StronglySorted R (filter P l).
Proof.
  induction 1 as [|x l Hl IH Hx]; [constructor|].
  rewrite filter_cons. case_decide; [|done].
  constructor; [done|]. rewrite Forall_forall in *.
  intros y Hy. apply list_elem_of_filter in Hy as [_ Hy]. auto.
Qed.

Lemma declared_before_antisym (params : list string) (a b : string) :
  declared_before params a b -> declared_before params b a -> a = b.
Proof.
  intros (i & j & Hi & Hj & Hij) (j' & i' & Hj' & Hi' & Hji).
  assert (i = j) as -> by (rewrite Hi in Hi'; rewrite Hj in Hj'; simplify_eq; lia).
  apply list_index_lookup in Hi, Hj. congruence.
Qed.

(** With distinct keys that the model declares, [sorted] returns the keys
    in the order of the model's parameter list. *)
Lemma sorted_by_index_filter (params ks : list string) :
  NoDup ks -> NoDup params -> (forall k, k ∈ ks -> k ∈ params) ->
  sorted_by (fun key => list_index key params) ks
  = Ok (filter (fun p => p ∈ ks) params).
Proof.
  intros Hks Hparams Hsub. unfold sorted_by.
  destruct (list_comp_total (fun x => k <~ list_index x params ;; Ok (k, x)) ks)
    as [dec Hdec].
  { intros x Hx. destruct (list_index_elem x params) as [i ->]; [auto|].
    by eexists. }
  rewrite Hdec. simpl. f_equal. apply list_comp_Forall2 in Hdec.
  assert (Hshape : dec.*2 = ks /\
                   Forall (fun a => list_index a.2 params = Ok a.1) dec).
  { clear Hks Hsub. induction Hdec as [|x [i k] ks dec Hx _ [IH1 IH2]]; [done|].
    destruct (list_index x params) as [i'|] eqn:Hi; simplify_eq/=.
    split; [by f_equal | by constructor]. }
  destruct Hshape as [Hsnd Hvalid].
  apply (StronglySorted_unique_strong (declared_before params)).
  - intros a b _ _. apply declared_before_antisym.
  - apply (StronglySorted_fmap snd
             (fun a b => a.1 <= b.1 /\
                list_index a.2 params = Ok a.1 /\ list_index b.2 params = Ok b.1)).
    + intros [i a] [j b] (Hij & Ha & Hb). by exists i, j.
    + apply StronglySorted_strengthen; [apply insertion_sort_sorted|].
      by rewrite insertion_sort_Permutation.
  - apply StronglySorted_filter, StronglySorted_lookup.
    intros i j x y Hij Hx Hy. exists i, j.
    split; [by apply list_index_NoDup|]. split; [by apply list_index_NoDup | lia].
  - rewrite insertion_sort_Permutation, Hsnd.
    apply NoDup_Permutation; [done | by apply NoDup_filter |].
    intros x. rewrite list_elem_of_filter.
    split; [intros; split; auto | by intros [? ?]].
Qed.
End sorting.

(** ** More on [FitMultinest.__init__] *)

Section init_success.
Import FitMultinest.

(** Construction with distinct prior names that the model declares. *)
Lemma init_known (spectrum : Spectrum1D) (priors0 : dict prior) (model_star : Model)
    (likelihood0 : option likelihood_fn) (prefix : string) :
  NoDup (keys priors0) -> NoDup (parameters model_star) ->
  Forall (fun k => k ∈ parameters model_star) (keys priors0) ->
  exists self : t,
    __init__ spectrum priors0 model_star likelihood0 prefix = Ok self /\
    parameter_names self
    = filter (fun p => p ∈ keys priors0) (parameters model_star) /\
    n_params self = length priors0 /\
    keys (PriorCollections.priors (priors self)) = parameter_names self /\
    (forall k (p : prior),
       (k, p) ∈ PriorCollections.priors (priors self) <-> (k, p) ∈ priors0) /\
    likelihood self
    = match likelihood0 with
      | None => Has (Likelihood.__call__
                       (Likelihood.__init__ spectrum model_star (parameter_names self)))
      | Some _ => Missing
      end.
Proof.
  intros Hks Hparams Hsub. rewrite Forall_forall in Hsub.
  set (names := filter (fun p => p ∈ keys priors0) (parameters model_star)).
  assert (Hperm : names ≡ₚ keys priors0).
  { apply NoDup_Permutation; [by apply NoDup_filter | done |].
    intros x. unfold names. rewrite list_elem_of_filter.
    split; [by intros [? ?] | intros; split; auto]. }
  destruct (list_comp_total
              (fun key => p <~ dict_getitem priors0 key ;; Ok (key, p)) names)
    as [pairs Hpairs].
  { intros k Hk. rewrite Hperm in Hk. unfold keys in Hk.
    apply list_elem_of_fmap in Hk as ([k0 p] & -> & Hin).
    rewrite (dict_getitem_NoDup priors0 _ p) by done. by eexists. }
  assert (Hshape : keys pairs = names /\
                   Forall (fun kp => dict_getitem priors0 kp.1 = Ok kp.2) pairs).
  { apply list_comp_Forall2 in Hpairs. clear Hperm.
    induction Hpairs as [|k [k' p] ks pairs Hk _ [IH1 IH2]]; [done|].
    destruct (dict_getitem priors0 k) as [p'|] eqn:Hp; simplify_eq/=.
    split; [by f_equal | by constructor]. }
  destruct Hshape as [Hkeys Hvals].
  assert (Hod : OrderedDict pairs = pairs).
  { apply OrderedDict_NoDup. rewrite Hkeys. by apply NoDup_filter. }
  eexists. split.
  { unfold __init__. rewrite sorted_by_index_filter by (rewrite ?Forall_forall; done).
    fold names. simpl. rewrite Hpairs. simpl. reflexivity. }
  simpl. rewrite Hod. split; [done|]. split.
  { rewrite <- (length_fmap fst pairs). fold (keys pairs). rewrite Hkeys, Hperm.
    unfold keys. by rewrite length_fmap. }
  split; [done|]. split; [|done].
  intros k p. rewrite Forall_forall in Hvals. split.
  - intros Hin. apply dict_getitem_elem. exact (Hvals _ Hin).
  - intros Hin.
    assert (Hk : k ∈ keys pairs).
    { rewrite Hkeys, Hperm. unfold keys. by apply (list_elem_of_fmap_2 fst) in Hin. }
    unfold keys in Hk. apply list_elem_of_fmap in Hk as ([k0 p'] & -> & Hin').
    pose proof (Hvals _ Hin') as Hget. simpl in Hget.
    rewrite (dict_getitem_NoDup priors0 _ p) in Hget by done. by simplify_eq.
Qed.
End init_success.

Section init_order.
Import FitMultinest.

Lemma init_unknown_key (spectrum : Spectrum1D) (priors0 : dict prior)
    (model_star : Model) (likelihood0 : option likelihood_fn) (prefix key : string) :
  key ∈ keys priors0 -> key ∉ parameters model_star ->
  __init__ spectrum priors0 model_star likelihood0 prefix = Raise ValueError.
Proof.
  intros Hin Hout. unfold __init__.
  rewrite (sorted_by_raises _ _ key ValueError); [done | done | |].
  - by apply list_index_absent.
  - intros y e. apply list_index_raises.
Qed.

(** X1. When the prior names are distinct and all declared by the model
    (whose parameter names are distinct), construction succeeds;
    [parameter_names] lists the prior names in the order of the model's
    parameter list, [n_params] is the number of priors, and the prior
    collection holds, in that same order, each name with the prior given
    for it. *)
Theorem init_orders_parameters_like_model
    (spectrum : Spectrum1D) (priors0 : dict prior) (model_star : Model)
    (likelihood0 : option likelihood_fn) (prefix : string) :
  NoDup (keys priors0) -> NoDup (parameters model_star) ->
  Forall (fun k => k ∈ parameters model_star) (keys priors0) ->
  exists self : t,
    __init__ spectrum priors0 model_star likelihood0 prefix = Ok self /\
    parameter_names self
    = filter (fun p => p ∈ keys priors0) (parameters model_star) /\
    n_params self = length priors0 /\
    keys (PriorCollections.priors (priors self)) = parameter_names self /\
    (forall k (p : prior),
       (k, p) ∈ PriorCollections.priors (priors self) <-> (k, p) ∈ priors0).
Proof.
  intros Hks Hparams Hsub.
  destruct (init_known spectrum priors0 model_star likelihood0 prefix Hks Hparams Hsub)
    as (self & Hinit & Hnames & Hn & Hkeys & Hvals & _).
  by exists self.
Qed.

Lemma init_orders_parameters_like_model_witness :
  exists self : t,
    __init__ sample_spectrum sample_priors sample_model None "chains/spectrumFit_"
    = Ok self /\
    parameter_names self = ["teff"; "logg"]%string /\
    n_params self = 2 /\
    keys (PriorCollections.priors (priors self)) = ["teff"; "logg"]%string.
Proof.
  destruct (init_orders_parameters_like_model sample_spectrum sample_priors
              sample_model None "chains/spectrumFit_"%string)
    as (self & Hinit & Hnames & Hn & Hkeys & _).
  - apply (bool_decide_unpack _). vm_compute. exact I.
  - apply (bool_decide_unpack _). vm_compute. exact I.
  - apply (bool_decide_unpack _). vm_compute. exact I.
  - exists self. split; [exact Hinit|]. split; [exact Hnames|].
    split; [exact Hn|]. rewrite Hkeys. exact Hnames.
Defined.

(** X2. The iteration order of the prior dictionary does not matter: two
    dictionaries with the same items (distinct names) in different orders
    construct the same instance, or fail alike. *)
Theorem init_independent_of_dict_order
    (spectrum : Spectrum1D) (priors1 priors2 : dict prior) (model_star : Model)
    (likelihood0 : option likelihood_fn) (prefix : string) :
  NoDup (keys priors1) -> NoDup (parameters model_star) ->
  priors1 ≡ₚ priors2 ->
  __init__ spectrum priors1 model_star likelihood0 prefix
  = __init__ spectrum priors2 model_star likelihood0 prefix.
Proof.
  intros Hks Hparams Hperm.
  assert (Hkperm : keys priors1 ≡ₚ keys priors2) by (unfold keys; by rewrite Hperm).
  assert (Hks2 : NoDup (keys priors2)) by (by rewrite <- Hkperm).
  destruct (decide (Forall (fun k => k ∈ parameters model_star) (keys priors1)))
    as [Hsub|Hnot].
  - assert (Hsub2 : Forall (fun k => k ∈ parameters model_star) (keys priors2))
      by (by rewrite <- Hkperm).
    rewrite Forall_forall in Hsub, Hsub2. unfold __init__.
    rewrite !sorted_by_index_filter by done.
    rewrite (list_filter_iff (fun p => p ∈ keys priors1) (fun p => p ∈ keys priors2))
      by (intros x; by rewrite Hkperm).
    simpl.
    rewrite (list_comp_ext
               (fun key => p <~ dict_getitem priors1 key ;; Ok (key, p))
               (fun key => p <~ dict_getitem priors2 key ;; Ok (key, p)));
      [done|].
    intros k _. by rewrite (dict_getitem_Permutation priors1 priors2).
  - apply not_Forall_Exists in Hnot; [|apply _].
    apply Exists_exists in Hnot as (k & Hk & Hout). simpl in Hout.
    rewrite (init_unknown_key _ priors1 _ _ _ k) by done.
    rewrite (init_unknown_key _ priors2 _ _ _ k); [done | by rewrite <- Hkperm | done].
Qed.

Lemma init_independent_of_dict_order_witness :
  __init__ sample_spectrum [("logg", fixed 3); ("teff", uniform 0 10)]%string%float
    sample_model None "chains/spectrumFit_"
  = __init__ sample_spectrum [("teff", uniform 0 10); ("logg", fixed 3)]%string%float
      sample_model None "chains/spectrumFit_".
Proof.
  apply init_independent_of_dict_order.
  - apply (bool_decide_unpack _). vm_compute. exact I.
  - apply (bool_decide_unpack _). vm_compute. exact I.
  - apply Permutation_swap.
Defined.
End init_order.

(** ** More on [FitMultinest.run] *)

Section run_errors.
Import FitMultinest.

Lemma init_own_likelihood spectrum priors0 model_star (lk0 : likelihood_fn) prefix self :
  __init__ spectrum priors0 model_star (Some lk0) prefix = Ok self ->
  likelihood self = Missing.
Proof.
  unfold __init__.
  destruct (sorted_by _ _) as [names|]; simpl; [|done].
  destruct (list_comp _ names) as [pairs|]; simpl; [|done].
  by intros [= <-].
Qed.

Lemma run_without_likelihood (w : World) (self : t) (fs : FS)
    (no_plots resume verbose : bool) :
  likelihood self = Missing ->
  run w no_plots resume verbose (self, fs) = ((self, fs), Raise AttributeError).
Proof.
  intros Hlk. unfold run, bind, self_, getattr. cbn [fst snd]. by rewrite Hlk.
Qed.

Lemma intervals_short (marginals : list Marginal) n : forall k acc1 acc3,
  k <= length marginals -> length marginals < k + n ->
  intervals marginals (seq k n) acc1 acc3 = Raise IndexError.
Proof.
  induction n as [|n IH]; intros k acc1 acc3 Hk Hlen; [lia|]. simpl.
  unfold getitem. destruct (marginals !! k) as [m|] eqn:Hm; simpl; [|done].
  apply lookup_lt_Some in Hm. apply IH; lia.
Qed.

Lemma run_unreadable_stats (w : World) (self : t) (fs fs1 : FS) lk (f : File)
    (no_plots resume verbose : bool) :
  likelihood self = Has lk ->
  pymultinest_run w lk (PriorCollections.prior_transform (priors self))
    (n_params self) (basename self) resume verbose fs = (fs1, Ok tt) ->
  writable w (basename self +:+ "params.json") = true ->
  fs1 !! (basename self +:+ "stats.dat") = Some f ->
  (forall s, f <> StatsDat s) ->
  run w no_plots resume verbose (self, fs)
  = ((set_analyzer (Some (Analyzer.__init__ (basename self) (n_params self))) self,
      <[basename self +:+ "params.json" := ParamsJson (parameter_names self)]> fs1),
     Raise IOError).
Proof.
  intros Hlk Hrun Hw Hstats Hf.
  unfold run, bind, self_, getattr, io, setattr, json_dump, path_exists,
    Analyzer.get_stats, lift, getitem.
  cbn [fst snd]. rewrite Hlk. cbn [fst snd]. rewrite Hrun. cbn [fst snd].
  rewrite Hw. unfold modify, ret. cbn [fst snd].
  rewrite stats_path_fresh, Hstats.
  rewrite bool_decide_eq_true_2 by eauto.
  cbn [fst snd Analyzer.outputfiles_basename].
  rewrite stats_path_fresh, Hstats.
  destruct f as [names|s|]; [done | by destruct (Hf s) | done].
Qed.

Lemma run_no_modes (w : World) (self : t) (fs fs1 : FS) lk (s : Stats)
    (no_plots resume verbose : bool) :
  likelihood self = Has lk ->
  pymultinest_run w lk (PriorCollections.prior_transform (priors self))
    (n_params self) (basename self) resume verbose fs = (fs1, Ok tt) ->
  writable w (basename self +:+ "params.json") = true ->
  fs1 !! (basename self +:+ "stats.dat") = Some (StatsDat s) ->
  modes s = [] ->
  run w no_plots resume verbose (self, fs)
  = ((set_stats (Has s)
        (set_analyzer (Some (Analyzer.__init__ (basename self) (n_params self))) self),
      <[basename self +:+ "params.json" := ParamsJson (parameter_names self)]> fs1),
     Raise IndexError).
Proof.
  intros Hlk Hrun Hw Hstats Hmodes.
  unfold run, bind, self_, getattr, io, setattr, json_dump, path_exists,
    Analyzer.get_stats, lift, getitem.
  cbn [fst snd]. rewrite Hlk. cbn [fst snd]. rewrite Hrun. cbn [fst snd].
  rewrite Hw. unfold modify, ret. cbn [fst snd].
  rewrite stats_path_fresh, Hstats.
  rewrite bool_decide_eq_true_2 by eauto.
  cbn [fst snd Analyzer.outputfiles_basename].
  rewrite stats_path_fresh, Hstats. cbn [fst snd].
  rewrite Hmodes. reflexivity.
Qed.

Lemma run_short_marginals (w : World) (self : t) (fs fs1 : FS) lk (s : Stats)
    (md : Mode) (no_plots resume verbose : bool) :
  likelihood self = Has lk ->
  pymultinest_run w lk (PriorCollections.prior_transform (priors self))
    (n_params self) (basename self) resume verbose fs = (fs1, Ok tt) ->
  writable w (basename self +:+ "params.json") = true ->
  fs1 !! (basename self +:+ "stats.dat") = Some (StatsDat s) ->
  modes s !! 0 = Some md ->
  length (marginals s) < n_params self ->
  run w no_plots resume verbose (self, fs)
  = ((set_evidence (Some (global_evidence s))
        (set_sigma (Some (mode_sigma md))
           (set_mean (Has (mode_mean md))
              (set_stats (Has s)
                 (set_analyzer
                    (Some (Analyzer.__init__ (basename self) (n_params self)))
                    self)))),
      <[basename self +:+ "params.json" := ParamsJson (parameter_names self)]> fs1),
     Raise IndexError).
Proof.
  intros Hlk Hrun Hw Hstats Hmode Hlen.
  unfold run, bind, self_, getattr, io, setattr, json_dump, path_exists,
    Analyzer.get_stats, lift, getitem.
  cbn [fst snd]. rewrite Hlk. cbn [fst snd]. rewrite Hrun. cbn [fst snd].
  rewrite Hw. unfold modify, ret. cbn [fst snd].
  rewrite stats_path_fresh, Hstats.
  rewrite bool_decide_eq_true_2 by eauto.
  cbn [fst snd Analyzer.outputfiles_basename].
  rewrite stats_path_fresh, Hstats. cbn [fst snd].
  rewrite Hmode. rewrite intervals_short by (simpl; lia). reflexivity.
Qed.
End run_errors.

(** C7, counterexample.  The statistics file is found and parsed, it has a
    first mode but one marginal for two parameters: [run] raises
    [IndexError] with [mean], [sigma] and [evidence] assigned and [sigma1],
    [sigma3] still [None]; the fields are not populated together. *)
Lemma run_partial_result_with_short_marginals :
  exists (self' : FitMultinest.t) (fs' : FS),
    FitMultinest.run (world_leaving stats_one_marginal) true false false
      (sample_fit, ∅) = ((self', fs'), Raise IndexError) /\
    fs' !! "chains/spectrumFit_stats.dat"%string = Some (StatsDat stats_one_marginal) /\
    FitMultinest.mean self' = Has [5; 3]%float /\
    FitMultinest.sigma self' = Some [0.5; 0]%float /\
    FitMultinest.evidence self' = Some (-3.5)%float /\
    FitMultinest.sigma1 self' = None /\
    FitMultinest.sigma3 self' = None.
Proof.
  eexists _, _. split.
  - apply (run_short_marginals (world_leaving stats_one_marginal) sample_fit ∅
             (<["chains/spectrumFit_stats.dat"%string := StatsDat stats_one_marginal]> ∅)
             (Likelihood.__call__ sample_likelihood) stats_one_marginal
             {| mode_mean := [5; 3]%float; mode_sigma := [0.5; 0]%float |});
      [reflexivity | reflexivity | reflexivity | | reflexivity | simpl; lia].
    vm_compute. reflexivity.
  - split; [vm_compute; reflexivity|]. repeat split; reflexivity.
Qed.

Section run_extras.
Import FitMultinest.

(** X3. An instance constructed with a likelihood of the caller's own has
    no [likelihood] attribute (the constructor only assigns the default
    one), so [run] raises [AttributeError] before the sampler is called:
    neither the instance nor the files change. *)
Theorem run_with_own_likelihood_raises
    (spectrum : Spectrum1D) (priors0 : dict prior) (model_star : Model)
    (lk0 : likelihood_fn) (prefix : string) (self : t)
    (w : World) (fs : FS) (no_plots resume verbose : bool) :
  __init__ spectrum priors0 model_star (Some lk0) prefix = Ok self ->
  run w no_plots resume verbose (self, fs) = ((self, fs), Raise AttributeError).
Proof.
  intros Hinit. apply run_without_likelihood.
  by eapply init_own_likelihood.
Qed.

Lemma run_with_own_likelihood_raises_witness :
  run silent_world false false false (sample_fit_own_likelihood, ∅)
  = ((sample_fit_own_likelihood, ∅), Raise AttributeError).
Proof.
  apply (run_with_own_likelihood_raises sample_spectrum sample_priors sample_model
           flat_likelihood "chains/spectrumFit_"%string).
  reflexivity.
Defined.

(** X4. An exception raised by the sampler escapes from [run] unchanged: no
    attribute of the instance has been assigned and [run] has written no
    file of its own. *)
Theorem run_sampler_error_propagates
    (w : World) (self : t) (fs fs1 : FS) (lk : likelihood_fn) (e : exn)
    (no_plots resume verbose : bool) :
  likelihood self = Has lk ->
  pymultinest_run w lk (PriorCollections.prior_transform (priors self))
    (n_params self) (basename self) resume verbose fs = (fs1, Raise e) ->
  run w no_plots resume verbose (self, fs) = ((self, fs1), Raise e).
Proof.
  intros Hlk Hrun. unfold run, bind, self_, getattr, io.
  cbn [fst snd]. rewrite Hlk. cbn [fst snd]. by rewrite Hrun.
Qed.

Lemma run_sampler_error_propagates_witness :
  run failing_world false false false (sample_fit, ∅)
  = ((sample_fit, ∅), Raise EngineError).
Proof.
  apply (run_sampler_error_propagates failing_world sample_fit ∅ ∅
           (Likelihood.__call__ sample_likelihood)).
  - reflexivity.
  - reflexivity.
Defined.

(** X5. When the statistics file is there but reports no mode, [run] raises
    [IndexError] with [analyzer] and [stats] assigned and [mean], [sigma],
    [evidence], [sigma1], [sigma3] as they were. *)
Theorem run_stats_without_modes
    (w : World) (self : t) (fs fs1 : FS) (lk : likelihood_fn) (s : Stats)
    (no_plots resume verbose : bool) :
  likelihood self = Has lk ->
  pymultinest_run w lk (PriorCollections.prior_transform (priors self))
    (n_params self) (basename self) resume verbose fs = (fs1, Ok tt) ->
  writable w (basename self +:+ "params.json") = true ->
  fs1 !! (basename self +:+ "stats.dat") = Some (StatsDat s) ->
  modes s = [] ->
  exists (self' : t) (fs' : FS),
    run w no_plots resume verbose (self, fs) = ((self', fs'), Raise IndexError) /\
    analyzer self' = Some (Analyzer.__init__ (basename self) (n_params self)) /\
    stats self' = Has s /\
    mean self' = mean self /\ sigma self' = sigma self /\
    evidence self' = evidence self /\ sigma1 self' = sigma1 self /\
    sigma3 self' = sigma3 self.
Proof.
  intros Hlk Hrun Hw Hstats Hmodes. eexists _, _.
  split; [by eapply run_no_modes|]. done.
Qed.

Lemma run_stats_without_modes_witness :
  exists (self' : t) (fs' : FS),
    run (world_leaving stats_without_modes) true false false (sample_fit, ∅)
    = ((self', fs'), Raise IndexError) /\
    stats self' = Has stats_without_modes /\ mean self' = Missing /\
    evidence self' = None.
Proof.
  destruct (run_stats_without_modes (world_leaving stats_without_modes) sample_fit ∅
              (<["chains/spectrumFit_stats.dat"%string := StatsDat stats_without_modes]> ∅)
              (Likelihood.__call__ sample_likelihood) stats_without_modes
              true false false)
    as (self' & fs' & Hrun & _ & Hs & Hm & _ & He & _).
  - reflexivity.
  - reflexivity.
  - reflexivity.
  - vm_compute. reflexivity.
  - reflexivity.
  - exists self', fs'. split; [exact Hrun|]. split; [exact Hs|].
    split; [exact Hm | exact He].
Defined.

(** X6. When the statistics have a first mode but fewer marginals than
    [n_params], [run] raises [IndexError] after [mean], [sigma] and
    [evidence] have been assigned: these hold the new values while [sigma1]
    and [sigma3] are as they were. *)
Theorem run_stats_short_marginals
    (w : World) (self : t) (fs fs1 : FS) (lk : likelihood_fn) (s : Stats)
    (md : Mode) (no_plots resume verbose : bool) :
  likelihood self = Has lk ->
  pymultinest_run w lk (PriorCollections.prior_transform (priors self))
    (n_params self) (basename self) resume verbose fs = (fs1, Ok tt) ->
  writable w (basename self +:+ "params.json") = true ->
  fs1 !! (basename self +:+ "stats.dat") = Some (StatsDat s) ->
  modes s !! 0 = Some md ->
  length (marginals s) < n_params self ->
  exists (self' : t) (fs' : FS),
    run w no_plots resume verbose (self, fs) = ((self', fs'), Raise IndexError) /\
    mean self' = Has (mode_mean md) /\
    sigma self' = Some (mode_sigma md) /\
    evidence self' = Some (global_evidence s) /\
    sigma1 self' = sigma1 self /\
    sigma3 self' = sigma3 self.
Proof.
  intros Hlk Hrun Hw Hstats Hmode Hlen. eexists _, _.
  split; [by eapply run_short_marginals|]. done.
Qed.

Lemma run_stats_short_marginals_witness :
  exists (self' : t) (fs' : FS),
    run (world_leaving stats_one_marginal) true false false (sample_fit, ∅)
    = ((self', fs'), Raise IndexError) /\
    mean self' = Has [5; 3]%float /\ sigma1 self' = None /\ sigma3 self' = None.
Proof.
  destruct (run_stats_short_marginals (world_leaving stats_one_marginal) sample_fit ∅
              (<["chains/spectrumFit_stats.dat"%string := StatsDat stats_one_marginal]> ∅)
              (Likelihood.__call__ sample_likelihood) stats_one_marginal
              {| mode_mean := [5; 3]%float; mode_sigma := [0.5; 0]%float |}
              true false false)
    as (self' & fs' & Hrun & Hm & _ & _ & H1 & H3).
  - reflexivity.
  - reflexivity.
  - reflexivity.
  - vm_compute. reflexivity.
  - reflexivity.
  - simpl. lia.
  - exists self', fs'. split; [exact Hrun|]. split; [exact Hm|].
    split; [exact H1 | exact H3].
Defined.

(** X7. With [no_plots] set, the only file [run] itself writes after the
    sampler has returned is [basename + 'params.json'], holding
    [parameter_names]; this is so whatever the statistics file is (absent,
    unreadable, incomplete or complete) and whether [run] returns or raises,
    and the configuration of the instance is unchanged. *)
Theorem run_no_plots_writes_only_params
    (w : World) (self : t) (fs fs1 : FS) (lk : likelihood_fn)
    (resume verbose : bool) :
  likelihood self = Has lk ->
  pymultinest_run w lk (PriorCollections.prior_transform (priors self))
    (n_params self) (basename self) resume verbose fs = (fs1, Ok tt) ->
  writable w (basename self +:+ "params.json") = true ->
  exists (self' : t) (r : result unit),
    run w true resume verbose (self, fs)
    = ((self',
        <[basename self +:+ "params.json" := ParamsJson (parameter_names self)]> fs1),
       r) /\
    parameter_names self' = parameter_names self /\
    n_params self' = n_params self /\
    basename self' = basename self /\
    priors self' = priors self /\
    likelihood self' = likelihood self.
Proof.
  intros Hlk Hrun Hw.
  destruct (fs1 !! (basename self +:+ "stats.dat")) as [f|] eqn:Hstats.
  - destruct f as [names|s|].
    + eexists _, _. split; [by eapply run_unreadable_stats|]. done.
    + destruct (modes s) as [|md ms] eqn:Hmodes.
      * eexists _, _. split; [by eapply run_no_modes|]. done.
      * destruct (decide (n_params self <= length (marginals s))) as [Hlen|Hlen].
        -- eexists _, _. split.
           ++ rewrite (run_with_stats w self fs fs1 lk s md true resume verbose);
                [reflexivity | done | done | done | done | by rewrite Hmodes | done].
           ++ done.
        -- eexists _, _. split.
           ++ eapply run_short_marginals; [done | done | done | done | by rewrite Hmodes | lia].
           ++ done.
    + eexists _, _. split; [by eapply run_unreadable_stats|]. done.
  - eexists _, _. split; [by eapply run_missing_stats|]. done.
Qed.

Lemma run_no_plots_writes_only_params_witness :
  exists (self' : t) (r : result unit),
    run sampling_world true false false (sample_fit, ∅)
    = ((self',
        <["chains/spectrumFit_params.json"%string := ParamsJson ["teff"; "logg"]%string]>
          (<["chains/spectrumFit_stats.dat"%string := StatsDat sample_stats]> ∅)),
       r) /\
    parameter_names self' = ["teff"; "logg"]%string.
Proof.
  destruct (run_no_plots_writes_only_params sampling_world sample_fit ∅
              (<["chains/spectrumFit_stats.dat"%string := StatsDat sample_stats]> ∅)
              (Likelihood.__call__ sample_likelihood) false false)
    as (self' & r & Hrun & Hn & _).
  - reflexivity.
  - reflexivity.
  - reflexivity.
  - exists self', r. split; [exact Hrun | exact Hn].
Defined.
End run_extras.

(** ** More on [PriorCollections.prior_transform] *)

Section transform_errors.
Import PriorCollections.

(** The loop over [k, k+n) when the first failing iteration is [j]: the
    entries before [j] have been replaced, the others are as they were, and
    the exception of iteration [j] escapes. *)
Lemma transform_loop_fail (vals : list prior) n : forall k (cube : list float) j e,
  k <= j < k + n ->
  (forall i, k <= i < j ->
     exists (p : prior) c v, vals !! i = Some p /\ cube !! i = Some c /\ p c = Ok v) ->
  (vals !! j = None /\ e = IndexError \/
   exists p : prior, vals !! j = Some p /\
     (cube !! j = None /\ e = IndexError \/
      exists c, cube !! j = Some c /\ p c = Raise e)) ->
  exists cube',
    for_in (seq k n) (transform_body vals) cube = (cube', Raise e) /\
    length cube' = length cube /\
    (forall i, i < k \/ j <= i -> cube' !! i = cube !! i) /\
    (forall i (p : prior) c v, k <= i < j -> vals !! i = Some p ->
       cube !! i = Some c -> p c = Ok v -> cube' !! i = Some v).
Proof.
  induction n as [|n IH]; intros k cube j e Hj Hbefore Hfail; [lia|].
  cbn [seq]. setoid_rewrite for_in_cons.
  destruct (decide (k = j)) as [->|Hne].
  - exists cube. split; [|split; [done|split; [done|intros; lia]]].
    unfold transform_body, bind, lift, get, getitem.
    destruct Hfail as [[-> ->]|(p & -> & [[-> ->]|(c & -> & ->)])]; done.
  - destruct (Hbefore k) as (p & c & v & Hp & Hc & Hv); [lia|].
    rewrite (transform_body_ok _ _ _ p c v) by done.
    destruct (IH (S k) (<[k := v]> cube) j e) as (cube' & Hrun & Hl & Hout & Hin).
    { lia. }
    { intros i Hi. destruct (Hbefore i) as (p' & c' & v' & ? & ? & ?); [lia|].
      exists p', c', v'. by rewrite list_lookup_insert_ne by lia. }
    { by rewrite list_lookup_insert_ne by lia. }
    exists cube'. split; [done|]. split; [by rewrite Hl, length_insert|]. split.
    + intros i Hi. rewrite Hout by lia. apply list_lookup_insert_ne. lia.
    + intros i p' c' v' Hi Hp' Hc' Hv'. destruct (decide (i = k)) as [->|Hik].
      * rewrite Hout by lia. assert (v' = v) as -> by congruence.
        apply list_lookup_insert_eq. by eapply lookup_lt_Some.
      * eapply Hin; [lia | done | | done].
        by rewrite list_lookup_insert_ne by lia.
Qed.

(** X8. When the prior at position [j] raises on its coordinate, and the
    priors before it return, [prior_transform] lets that exception escape;
    by then the coordinates before [j] have been transformed in place and
    those from [j] on are untouched. *)
Theorem prior_transform_prior_raises
    (self : t) (cube : list float) (ndim nparam j : nat) (p : prior) (c : float) (e : exn) :
  j < nparam ->
  values (priors self) !! j = Some p -> cube !! j = Some c -> p c = Raise e ->
  (forall i, i < j ->
     exists (q : prior) d v, values (priors self) !! i = Some q /\
                             cube !! i = Some d /\ q d = Ok v) ->
  exists cube' : list float,
    prior_transform self ndim nparam cube = (cube', Raise e) /\
    length cube' = length cube /\
    (forall i, j <= i -> cube' !! i = cube !! i) /\
    (forall i (q : prior) d v, i < j -> values (priors self) !! i = Some q ->
       cube !! i = Some d -> q d = Ok v -> cube' !! i = Some v).
Proof.
  intros Hj Hp Hc He Hbefore.
  destruct (transform_loop_fail (values (priors self)) nparam 0 cube j e)
    as (cube' & Hrun & Hl & Hout & Hin).
  { lia. }
  { intros i Hi. apply Hbefore. lia. }
  { right. exists p. split; [done|]. right. by exists c. }
  exists cube'. split; [by rewrite prior_transform_unfold|]. split; [done|]. split.
  - intros i Hi. apply Hout. by right.
  - intros i q d v Hi. apply Hin. lia.
Qed.

Lemma prior_transform_prior_raises_witness :
  exists cube' : list float,
    prior_transform
      (__init__ [("teff", uniform 0 10); ("counts", poisson sample_quantiles 4);
                 ("logg", fixed 3)]%string%float [])
      3 3 [0.5; 0.25; 0.75]%float = (cube', Raise TypeError) /\
    cube' !! 1 = Some 0.25%float /\ cube' !! 2 = Some 0.75%float.
Proof.
  destruct (prior_transform_prior_raises
              (__init__ [("teff", uniform 0 10); ("counts", poisson sample_quantiles 4);
                         ("logg", fixed 3)]%string%float [])
              [0.5; 0.25; 0.75]%float 3 3 1 (poisson sample_quantiles 4) 0.25%float TypeError)
    as (cube' & Hrun & _ & Hout & _).
  - lia.
  - reflexivity.
  - reflexivity.
  - reflexivity.
  - intros i Hi. assert (i = 0) as -> by lia. eexists _, _, _.
    split; [reflexivity|]. split; reflexivity.
  - exists cube'. split; [exact Hrun|]. split.
    + rewrite (Hout 1) by lia. reflexivity.
    + rewrite (Hout 2) by lia. reflexivity.
Defined.

(** X9. When [nparam] exceeds the number of priors or the length of the
    cube, and the priors return, [prior_transform] raises [IndexError] only
    after every coordinate that has a prior has been transformed in place;
    coordinates without a prior are untouched. *)
Theorem prior_transform_index_error_after_transform
    (self : t) (cube : list float) (ndim nparam : nat) :
  length (values (priors self)) `min` length cube < nparam ->
  (forall i (q : prior) d, values (priors self) !! i = Some q -> cube !! i = Some d ->
     exists v, q d = Ok v) ->
  exists cube' : list float,
    prior_transform self ndim nparam cube = (cube', Raise IndexError) /\
    length cube' = length cube /\
    (forall i (q : prior) d v, values (priors self) !! i = Some q ->
       cube !! i = Some d -> q d = Ok v -> cube' !! i = Some v) /\
    (forall i, length (values (priors self)) <= i -> cube' !! i = cube !! i).
Proof.
  intros Hn Hret.
  set (vals := values (priors self)) in *.
  set (j := length vals `min` length cube) in *.
  destruct (transform_loop_fail vals nparam 0 cube j IndexError)
    as (cube' & Hrun & Hl & Hout & Hin).
  { lia. }
  { intros i Hi.
    destruct (lookup_lt_is_Some_2 vals i) as [q Hq]; [lia|].
    destruct (lookup_lt_is_Some_2 cube i) as [d Hd]; [lia|].
    destruct (Hret i q d Hq Hd) as [v Hv]. by exists q, d, v. }
  { destruct (vals !! j) as [q|] eqn:Hq; [|by left].
    right. exists q. split; [done|]. left. split; [|done].
    apply lookup_lt_Some in Hq. apply lookup_ge_None_2. lia. }
  exists cube'. split; [by rewrite prior_transform_unfold|]. split; [done|]. split.
  - intros i q d v Hq Hd Hv. eapply Hin; [|done..].
    apply lookup_lt_Some in Hq, Hd. lia.
  - intros i Hi. apply Hout. right. lia.
Qed.

Lemma prior_transform_index_error_after_transform_witness :
  exists cube' : list float,
    prior_transform (__init__ [("teff", uniform 0 10); ("logg", fixed 3)]%string%float [])
      3 3 [0.5; 0.25; 0.75]%float = (cube', Raise IndexError) /\
    cube' !! 1 = Some 3%float /\ cube' !! 2 = Some 0.75%float.
Proof.
  destruct (prior_transform_index_error_after_transform
              (__init__ [("teff", uniform 0 10); ("logg", fixed 3)]%string%float [])
              [0.5; 0.25; 0.75]%float 3 3)
    as (cube' & Hrun & _ & Hin & Hout).
  - simpl. lia.
  - intros [|[|i]] q d Hq Hd; simpl in Hq, Hd; simplify_eq; eexists; reflexivity.
  - exists cube'. split; [exact Hrun|]. split.
    + eapply (Hin 1); reflexivity.
    + rewrite (Hout 2) by (simpl; lia). reflexivity.
Defined.
End transform_errors.


(** ** More on [Likelihood.__call__] *)

Section likelihood_extras.
Local Open Scope float_scope.

Lemma zip_take_length {A B} (l : list A) (k : list B) :
  zip l (take (length l) k) = zip l k.
Proof.
  revert k. induction l as [|x l IH]; intros [|y k]; simpl; [done..|].
  by rewrite IH.
Qed.

(** X13. The likelihood reads one cube entry per parameter name: entries
    of [model_param] beyond the number of parameter names, and the
    arguments [ndim] and [nparam], have no influence on the result. *)
Theorem Likelihood_call_ignores_surplus_entries
    (self : Likelihood.t) (model_param : list float) (ndim nparam ndim' nparam' : nat) :
  Likelihood.__call__ self model_param ndim nparam
  = Likelihood.__call__ self
      (take (length (Likelihood.parameter_names self)) model_param) ndim' nparam'.
Proof. unfold Likelihood.__call__. by rewrite zip_take_length. Qed.

(** X14. When the model spectrum and the observed spectrum have different
    numbers of points, neither of them being one, the likelihood raises
    [ValueError] instead of returning a number. *)
Theorem Likelihood_call_shape_mismatch
    (self : Likelihood.t) (model_param : list float) (ndim nparam : nat) (m : Spectrum1D) :
  evaluate (Likelihood.model self)
    (OrderedDict (zip (Likelihood.parameter_names self) model_param)) = Ok m ->
  length (flux m) <> length (flux (Likelihood.data self)) ->
  length (flux m) <> 1%nat ->
  length (flux (Likelihood.data self)) <> 1%nat ->
  Likelihood.__call__ self model_param ndim nparam = Raise ValueError.
Proof.
  intros Hm Hne Hm1 Hd1. unfold Likelihood.__call__. rewrite Hm. simpl.
  unfold np.broadcast.
  destruct (flux (Likelihood.data self)) as [|x [|x' a]],
           (flux m) as [|y [|y' b]]; simpl in *; try done;
    rewrite decide_False by (simpl; congruence); reflexivity.
Qed.

Lemma Likelihood_call_shape_mismatch_witness :
  Likelihood.__call__
    (Likelihood.__init__ sample_spectrum coarse_model ["teff"; "logg"]%string)
    [5; 3] 2 2 = Raise ValueError.
Proof.
  apply (Likelihood_call_shape_mismatch _ _ _ _
           {| wavelength := [4000; 4002]; flux := [1; 4]; uncertainty := [] |}).
  - reflexivity.
  - simpl. lia.
  - simpl. lia.
  - simpl. lia.
Defined.
End likelihood_extras.

(** ** The two callbacks of a fit *)

Section callbacks.
Import FitMultinest.

Lemma init_n_params spectrum priors0 model_star likelihood0 prefix self :
  __init__ spectrum priors0 model_star likelihood0 prefix = Ok self ->
  n_params self = length (PriorCollections.priors (priors self)).
Proof.
  unfold __init__.
  destruct (sorted_by _ _) as [names|]; simpl; [|done].
  destruct (list_comp _ names) as [pairs|]; simpl; [|done].
  by intros [= <-].
Qed.

(** X15. The two callbacks handed to the sampler agree on the order of the
    parameters.  For an instance constructed with the default likelihood
    from distinct prior names that the model declares, and a cube with at
    least as many entries as priors: [prior_transform] returns normally,
    and for each prior name [k] with prior [p] there is a position [i] such
    that [parameter_names[i]] is [k], the transformed value is
    [p(cube[i])], and the keyword dictionary that the likelihood builds
    from the transformed cube binds [k] to that value. *)
Theorem callbacks_agree_on_parameter_order
    (spectrum : Spectrum1D) (priors0 : dict prior) (model_star : Model)
    (prefix : string) (self : t) (cube : list float) (ndim : nat) :
  NoDup (keys priors0) -> NoDup (parameters model_star) ->
  Forall (fun k => k ∈ parameters model_star) (keys priors0) ->
  __init__ spectrum priors0 model_star None prefix = Ok self ->
  length priors0 <= length cube ->
  (forall (p : prior) c, p ∈ values priors0 -> exists v, p c = Ok v) ->
  exists cube' : list float,
    PriorCollections.prior_transform (priors self) ndim (n_params self) cube
    = (cube', Ok tt) /\
    likelihood self
    = Has (Likelihood.__call__
             (Likelihood.__init__ spectrum model_star (parameter_names self))) /\
    (forall k (p : prior), (k, p) ∈ priors0 ->
       exists i c v,
         parameter_names self !! i = Some k /\ cube !! i = Some c /\ p c = Ok v /\
         dict_getitem (OrderedDict (zip (parameter_names self) cube')) k = Ok v).
Proof.
  intros Hks Hparams Hsub Hinit Hlen Hret.
  destruct (init_known spectrum priors0 model_star None prefix Hks Hparams Hsub)
    as (self0 & Hinit0 & Hnames & Hn & Hkeys & Hvals & Hlk).
  assert (self0 = self) as -> by congruence.
  pose proof (init_n_params _ _ _ _ _ _ Hinit) as Hn'.
  set (pairs := PriorCollections.priors (priors self)) in *.
  assert (Hnd : NoDup (parameter_names self)).
  { rewrite Hnames. by apply NoDup_filter. }
  assert (Hlv : length (values pairs) = n_params self).
  { unfold values. by rewrite length_fmap. }
  destruct (transform_loop_ok (values pairs) (n_params self) 0 cube)
    as (cube' & Hrun & Hl & _ & Hin).
  { simpl. lia. }
  { intros j Hj.
    destruct (lookup_lt_is_Some_2 pairs j) as [[k p] Hkp]; [lia|].
    destruct (lookup_lt_is_Some_2 cube j) as [c Hc]; [lia|].
    destruct (Hret p c) as [v Hv].
    { apply (list_elem_of_fmap_2' snd _ (k, p)); [|done].
      apply Hvals. by eapply list_elem_of_lookup_2. }
    exists p, c, v. split; [|done]. unfold values.
    by rewrite list_lookup_fmap, Hkp. }
  exists cube'. split; [by rewrite prior_transform_unfold|].
  split; [done|].
  intros k p Hkp. apply Hvals in Hkp.
  apply list_elem_of_lookup_1 in Hkp as [i Hi].
  assert (Hilt : i < n_params self) by (apply lookup_lt_Some in Hi; lia).
  destruct (lookup_lt_is_Some_2 cube i) as [c Hc]; [lia|].
  destruct (Hret p c) as [v Hv].
  { apply (list_elem_of_fmap_2' snd _ (k, p)); [|done].
    apply Hvals. by eapply list_elem_of_lookup_2. }
  assert (Hname : parameter_names self !! i = Some k).
  { rewrite <- Hkeys. unfold keys. by rewrite list_lookup_fmap, Hi. }
  assert (Hv' : cube' !! i = Some v).
  { eapply Hin; [simpl; lia | | done | done].
    unfold values. by rewrite list_lookup_fmap, Hi. }
  exists i, c, v. split; [done|]. split; [done|]. split; [done|].
  assert (Hfst : keys (zip (parameter_names self) cube') = parameter_names self).
  { unfold keys. apply fst_zip. rewrite Hl, <- Hkeys. unfold keys.
    rewrite length_fmap. lia. }
  rewrite OrderedDict_NoDup by (by rewrite Hfst).
  apply dict_getitem_NoDup; [by rewrite Hfst|].
  apply (list_elem_of_lookup_2 _ i). apply lookup_zip_with_Some.
  by exists k, v.
Qed.

Lemma callbacks_agree_on_parameter_order_witness :
  exists cube' : list float,
    PriorCollections.prior_transform (priors sample_fit) 2 2 [0.5; 0.25]%float
    = (cube', Ok tt) /\
    dict_getitem (OrderedDict (zip ["teff"; "logg"]%string cube')) "logg" = Ok 3%float.
Proof.
  destruct (callbacks_agree_on_parameter_order sample_spectrum sample_priors
              sample_model "chains/spectrumFit_"%string sample_fit
              [0.5; 0.25]%float 2)
    as (cube' & Hrun & _ & Hbind).
  - apply (bool_decide_unpack _). vm_compute. exact I.
  - apply (bool_decide_unpack _). vm_compute. exact I.
  - apply (bool_decide_unpack _). vm_compute. exact I.
  - reflexivity.
  - simpl. lia.
  - intros p c Hp. simpl in Hp.
    apply elem_of_cons in Hp as [->|Hp]; [eexists; reflexivity|].
    apply elem_of_cons in Hp as [->|Hp]; [eexists; reflexivity|].
    by apply elem_of_nil in Hp.
  - exists cube'. split; [exact Hrun|].
    destruct (Hbind "logg"%string (fixed 3)) as (i & c & v & _ & _ & Hv & Hget).
    + simpl. apply list_elem_of_here.
    + etrans; [exact Hget | symmetry; exact Hv].
Defined.
End callbacks.
